(** * Room reservation system: admission, conflict detection and lifecycle

    A shallow embedding of the reservation core of the Node.js backend:

    - [backend/models/room.js]: the [Room] and [Reservation] Mongoose models,
      with [Reservation.checkAvailability] and [canBeCancelled];
    - [backend/utils/validations.js]: the Joi schema
      [createReservationValidation];
    - [backend/middlewares/authMiddleware.js]: [authorize];
    - [backend/controllers/reservationController.js]: [createReservation],
      [cancelReservation], [updateReservationStatus],
      [adminCancelReservation].

    Conventions.  A JavaScript [Date] is its number of milliseconds since the
    epoch, an integer ([Z]).  A JavaScript string that a client sends and
    the schema trims or measures is the list of its UTF-16 code units.  A
    MongoDB collection is the list of its documents in insertion order.  An
    [ObjectId] is a natural number; the store carries the next fresh one.  A
    controller takes the clock reading [now], the authenticated [req.user],
    its request data and the database, and returns the database after the
    request, the HTTP response and the list of database calls it made, in
    order.  The [catch] branches (status 500) answer exceptions thrown by
    the driver; the store modelled here never throws, so they are
    unreachable and left out.

    Two limits of the embedding.  A handler runs from its first line to its
    answer as one step: the interleavings that its [await]s allow between
    requests in flight together are not modelled, and every statement about
    sequences of requests is about requests served one at a time.  And a
    handler reads the clock once: [Reservation.create] and [save] stamp
    [createdAt] and [updatedAt] some milliseconds after Joi's
    [greater('now')] or [canBeCancelled] read the clock, the model gives
    them the one reading [now], and no statement relies on how a stamp
    compares with the times of a reservation. *)

From Stdlib Require Import ZArith QArith List Bool String Ascii Lia.
From Stdlib Require Import DecimalString.
From Stdlib Require Import Qround Permutation.
Import ListNotations.

#[local] Open Scope list_scope.
#[local] Open Scope string_scope.
#[local] Open Scope Z_scope.

Definition ObjectId := nat.
Definition Date := Z.

(** The UTF-16 code units of a JavaScript string; [utf16] writes an ASCII
    literal as one. *)
Definition JSString := list N.

Definition utf16 (s : string) : JSString :=
  map N_of_ascii (list_ascii_of_string s).

(** ** Users (the part of [req.user] the reservation controllers read) *)

Inductive Role := user_role | admin_role.

Definition Role_eqb (a b : Role) : bool :=
  match a, b with
  | user_role, user_role | admin_role, admin_role => true
  | _, _ => false
  end.

Record User := mkUser { user_id : ObjectId; role : Role }.

(** ** Reservation status: [enum: ['pending','confirmed','cancelled','completed']] *)

Inductive Status := pending | confirmed | cancelled | completed.

Definition Status_eqb (a b : Status) : bool :=
  match a, b with
  | pending, pending | confirmed, confirmed
  | cancelled, cancelled | completed, completed => true
  | _, _ => false
  end.

Definition Status_of_string (s : string) : option Status :=
  if String.eqb s "pending" then Some pending
  else if String.eqb s "confirmed" then Some confirmed
  else if String.eqb s "cancelled" then Some cancelled
  else if String.eqb s "completed" then Some completed
  else None.

(** ** The Room model *)

Module Room.

Record doc := mk {
  _id : ObjectId;
  capacity : Z;
  isActive : bool
}.

(** [Room.findById(roomId)] *)
Definition findById (coll : list doc) (id : ObjectId) : option doc :=
  find (fun r => Nat.eqb (_id r) id) coll.

End Room.

(** ** The Reservation model *)

Module Reservation.

Record doc := mk {
  _id : ObjectId;
  user : ObjectId;
  room : ObjectId;
  startTime : Date;
  endTime : Date;
  purpose : JSString;
  attendees : Z;
  status : Status;
  specialRequirements : option JSString;
  createdAt : Date;
  updatedAt : Date
}.

Definition set_status (s : Status) (d : doc) : doc :=
  mk (_id d) (user d) (room d) (startTime d) (endTime d) (purpose d)
     (attendees d) s (specialRequirements d) (createdAt d) (updatedAt d).

Definition set_updatedAt (t : Date) (d : doc) : doc :=
  mk (_id d) (user d) (room d) (startTime d) (endTime d) (purpose d)
     (attendees d) (status d) (specialRequirements d) (createdAt d) t.

(** The virtual [isActive]: [['pending','confirmed'].includes(this.status)];
    the same test is the query operator
    [status: { $in: ['pending','confirmed'] }]. *)
Definition status_in_pending_confirmed (s : Status) : bool :=
  match s with
  | pending | confirmed => true
  | cancelled | completed => false
  end.

Definition isActive (d : doc) : bool := status_in_pending_confirmed (status d).

(** The [$or] of [conflictConditions], evaluated on a stored document:
    - [{ startTime: { $gte: startTime, $lt: endTime } }]
    - [{ endTime: { $gt: startTime, $lte: endTime } }]
    - [{ startTime: { $lte: startTime }, endTime: { $gte: endTime } }] *)
Definition or_clauses (newStart newEnd : Date) (d : doc) : bool :=
  ((newStart <=? startTime d) && (startTime d <? newEnd))
  || ((newStart <? endTime d) && (endTime d <=? newEnd))
  || ((startTime d <=? newStart) && (newEnd <=? endTime d)).

(** The whole filter object [conflictConditions], with the optional
    [_id: { $ne: excludeReservationId }]: [if (excludeReservationId)] is
    [None] for the default [null] and [Some e] for an id (an id is always
    truthy). *)
Definition conflictConditions (roomId : ObjectId) (newStart newEnd : Date)
    (excludeReservationId : option ObjectId) (d : doc) : bool :=
  Nat.eqb (room d) roomId
  && status_in_pending_confirmed (status d)
  && or_clauses newStart newEnd d
  && match excludeReservationId with
     | Some e => negb (Nat.eqb (_id d) e)
     | None => true
     end.

(** [this.findOne(filter)]: the first matching document, or [null]. *)
Definition findOne (coll : list doc) (filter : doc -> bool) : option doc :=
  find filter coll.

(** [reservationSchema.statics.checkAvailability] *)
Definition checkAvailability (coll : list doc) (roomId : ObjectId)
    (newStart newEnd : Date) (excludeReservationId : option ObjectId) : bool :=
  match findOne coll (conflictConditions roomId newStart newEnd excludeReservationId) with
  | Some _ => false
  | None => true
  end.

(** [hoursUntilStart = (this.startTime - now) / (1000 * 60 * 60)].  The
    quotient is taken in the rationals: for integer millisecond counts the
    double-precision quotient lies on the same side of 2 as the exact one. *)
Definition hoursUntilStart (now : Date) (d : doc) : Q :=
  (inject_Z (startTime d - now) / inject_Z (1000 * 60 * 60))%Q.

(** [reservationSchema.methods.canBeCancelled]:
    [this.status === 'confirmed' && hoursUntilStart > 2] *)
Definition canBeCancelled (now : Date) (d : doc) : bool :=
  Status_eqb (status d) confirmed
  && negb (Qle_bool (hoursUntilStart now d) (inject_Z 2)).

(** [Reservation.findById(id)] *)
Definition findById (coll : list doc) (id : ObjectId) : option doc :=
  find (fun r => Nat.eqb (_id r) id) coll.

(** Writing a document back under its [_id] ([updateOne({ _id }, ...)]):
    the first document carrying the id is replaced. *)
Fixpoint replace (d : doc) (coll : list doc) : list doc :=
  match coll with
  | [] => []
  | x :: rest =>
      if Nat.eqb (_id x) (_id d) then d :: rest else x :: replace d rest
  end.

(** [reservation.save()]: the [pre('save')] hook sets
    [this.updatedAt = Date.now()], then the document is written back.
    Returns the saved document and the collection. *)
Definition save (now : Date) (d : doc) (coll : list doc) : doc * list doc :=
  let d' := set_updatedAt now d in (d', replace d' coll).

(** [Reservation.findByIdAndUpdate(id, { status }, { new: true })]: the
    updated document ([timestamps: true] refreshes [updatedAt]), or [null]
    when no document has this id. *)
Definition findByIdAndUpdate (now : Date) (id : ObjectId) (s : Status)
    (coll : list doc) : option doc * list doc :=
  match findById coll id with
  | None => (None, coll)
  | Some d =>
      let d' := set_updatedAt now (set_status s d) in
      (Some d', replace d' coll)
  end.

(** [Reservation.create({...})]: a fresh [_id], the schema default
    [status: 'confirmed'], both timestamps at [now]; the document is
    appended to the collection. *)
Definition create (now : Date) (fresh : ObjectId) (u roomId : ObjectId)
    (s e : Date) (att : Z) (purp : JSString) (special : option JSString)
    (coll : list doc) : doc * list doc :=
  let d := mk fresh u roomId s e purp att confirmed special now now in
  (d, (coll ++ [d])%list).

End Reservation.

(** ** Request validation ([backend/utils/validations.js]) *)

Module validations.

(** The code units that [String.prototype.trim] strips: ECMAScript's
    WhiteSpace (TAB, VT, FF, SP, NBSP, U+FEFF and the space separators
    U+1680, U+2000 to U+200A, U+202F, U+205F, U+3000) and LineTerminator
    (LF, CR, U+2028, U+2029). *)
Definition white_space : list N :=
  [9; 10; 11; 12; 13; 32; 160; 5760;
   8192; 8193; 8194; 8195; 8196; 8197; 8198; 8199; 8200; 8201; 8202;
   8232; 8233; 8239; 8287; 12288; 65279]%N.

Definition is_space (c : N) : bool := existsb (N.eqb c) white_space.

Fixpoint trimStart (s : JSString) : JSString :=
  match s with
  | [] => []
  | c :: s' => if is_space c then trimStart s' else s
  end.

Fixpoint trimEnd (s : JSString) : JSString :=
  match s with
  | [] => []
  | c :: s' =>
      match trimEnd s' with
      | [] => if is_space c then [] else [c]
      | t => c :: t
      end
  end.

(** [String.prototype.trim] *)
Definition trim (s : JSString) : JSString := trimEnd (trimStart s).

(** The request body of [POST /api/reservations], its fields already of
    the types the schema asks for: the room a 24-digit hexadecimal id, the
    two times ISO dates, the attendees an integer. *)
Record createReservationBody := mkBody {
  room : ObjectId;
  startTime : Date;
  endTime : Date;
  purpose : JSString;
  attendees : Z;
  specialRequirements : option JSString
}.

(** Joi quotes the key in its default messages. *)
Definition label (key : string) : string :=
  String (ascii_of_nat 34) (key ++ String (ascii_of_nat 34) EmptyString).

(** [createReservationValidation.validate(req.body)], with Joi's default
    [abortEarly]: the keys are checked in the order of the schema and the
    first failure is [error.details[0]]; on success [value] is the body
    with its strings trimmed.  [.min], [.max] and the empty-string test
    look at [value.length], the number of code units, after the trim.
    - [startTime: Joi.date().iso().greater('now')]
    - [endTime: Joi.date().iso().greater(Joi.ref('startTime'))]
    - [purpose: Joi.string().min(5).max(200).required().trim()]
    - [attendees: Joi.number().integer().min(1).required()]
    - [specialRequirements: Joi.string().max(500).trim().allow('')] *)
Definition createReservationValidation (now : Date) (b : createReservationBody)
    : string + createReservationBody :=
  if negb (now <? startTime b) then
    inl "Start time must be in the future"
  else if negb (startTime b <? endTime b) then
    inl "End time must be after start time"
  else
    let p := trim (purpose b) in
    if (List.length p =? 0)%nat then
      inl (label "purpose" ++ " is not allowed to be empty")
    else if (List.length p <? 5)%nat then
      inl (label "purpose" ++ " length must be at least 5 characters long")
    else if (200 <? List.length p)%nat then
      inl (label "purpose" ++ " length must be less than or equal to 200 characters long")
    else if attendees b <? 1 then
      inl (label "attendees" ++ " must be greater than or equal to 1")
    else
      match specialRequirements b with
      | None =>
          inr (mkBody (room b) (startTime b) (endTime b) p (attendees b) None)
      | Some s =>
          let s' := trim s in
          if (500 <? List.length s')%nat then
            inl (label "specialRequirements"
                 ++ " length must be less than or equal to 500 characters long")
          else
            inr (mkBody (room b) (startTime b) (endTime b) p (attendees b) (Some s'))
      end.

End validations.

(** ** The database, responses and controller results *)

Record Db := mkDb {
  rooms : list Room.doc;
  reservations : list Reservation.doc;
  nextId : ObjectId
}.

Definition set_reservations (coll : list Reservation.doc) (d : Db) : Db :=
  mkDb (rooms d) coll (nextId d).

(** [res.status(code).json({ status, message, data: { reservation } })];
    [res.json] alone answers 200. *)
Record Response := mkResponse {
  statusCode : Z;
  body_status : string;
  message : string;
  data : option Reservation.doc
}.

Definition json_error (code : Z) (msg : string) : Response :=
  mkResponse code "error" msg None.

Definition json_success (code : Z) (msg : string) (r : Reservation.doc) : Response :=
  mkResponse code "success" msg (Some r).

(** The calls a controller makes on the models, with the ids they carry. *)
Inductive DbCall :=
| Room_findById (roomId : ObjectId)
| Reservation_checkAvailability (roomId : ObjectId) (s e : Date)
| Reservation_create (id : ObjectId)
| Reservation_findById (id : ObjectId)
| Reservation_save (id : ObjectId)
| Reservation_findByIdAndUpdate (id : ObjectId).

Record Result := mkResult {
  db : Db;
  response : Response;
  calls : list DbCall
}.

(** Template literal [${n}] of an integer. *)
Definition string_of_Z (n : Z) : string := NilZero.string_of_int (Z.to_int n).

(** ** [backend/middlewares/authMiddleware.js] *)

Definition authorize (roles : list Role) (req_user : User)
    (next : Db -> Result) (d : Db) : Result :=
  if negb (existsb (Role_eqb (role req_user)) roles) then
    mkResult d (json_error 403 "Access denied. Insufficient permissions.") []
  else next d.

(** ** [backend/controllers/reservationController.js] *)

(** [durationMinutes = (new Date(endTime) - new Date(startTime)) / (1000 * 60)];
    as for [hoursUntilStart] the quotient is exact. *)
Definition durationMinutes (s e : Date) : Q :=
  (inject_Z (e - s) / inject_Z (1000 * 60))%Q.

(** [createReservation].  [Reservation.create] cannot fail on a validated
    body (the schema's own validators ask no more than Joi did); the two
    [populate] calls only dress the response and are left out. *)
Definition createReservation (now : Date) (req_user : User)
    (body : validations.createReservationBody) (d : Db) : Result :=
  match validations.createReservationValidation now body with
  | inl msg => mkResult d (json_error 400 msg) []
  | inr value =>
      let roomId := validations.room value in
      let startTime := validations.startTime value in
      let endTime := validations.endTime value in
      let attendees := validations.attendees value in
      let c1 := [Room_findById roomId] in
      match Room.findById (rooms d) roomId with
      | None => mkResult d (json_error 404 "Room not found or not available") c1
      | Some room =>
          if negb (Room.isActive room) then
            mkResult d (json_error 404 "Room not found or not available") c1
          else if attendees >? Room.capacity room then
            mkResult d
              (json_error 400 ("Room capacity exceeded. Maximum capacity: "
                               ++ string_of_Z (Room.capacity room))) c1
          else
            let c2 := (c1 ++ [Reservation_checkAvailability roomId startTime endTime])%list in
            if negb (Reservation.checkAvailability (reservations d) roomId
                       startTime endTime None) then
              mkResult d
                (json_error 409 "Room is not available for the selected time slot") c2
            else if negb (Qle_bool (inject_Z 30) (durationMinutes startTime endTime)) then
              mkResult d (json_error 400 "Minimum booking duration is 30 minutes") c2
            else if negb (Qle_bool (durationMinutes startTime endTime) (inject_Z (8 * 60))) then
              mkResult d (json_error 400 "Maximum booking duration is 8 hours") c2
            else
              let '(reservation, coll) :=
                Reservation.create now (nextId d) (user_id req_user) roomId
                  startTime endTime attendees (validations.purpose value)
                  (validations.specialRequirements value) (reservations d) in
              mkResult (mkDb (rooms d) coll (S (nextId d)))
                (json_success 201 "Reservation created successfully" reservation)
                (c2 ++ [Reservation_create (Reservation._id reservation)])%list
      end
  end.

(** [cancelReservation]; [new Date()] inside [canBeCancelled] reads [now]. *)
Definition cancelReservation (now : Date) (req_user : User) (id : ObjectId)
    (d : Db) : Result :=
  let c1 := [Reservation_findById id] in
  match Reservation.findById (reservations d) id with
  | None => mkResult d (json_error 404 "Reservation not found") c1
  | Some reservation =>
      if negb (Role_eqb (role req_user) admin_role)
         && negb (Nat.eqb (Reservation.user reservation) (user_id req_user)) then
        mkResult d
          (json_error 403 "Access denied. You can only cancel your own reservations.") c1
      else if negb (Role_eqb (role req_user) admin_role)
              && negb (Reservation.canBeCancelled now reservation) then
        mkResult d
          (json_error 400
             "Reservation cannot be cancelled. Must be cancelled at least 2 hours before start time.")
          c1
      else
        let '(saved, coll) :=
          Reservation.save now (Reservation.set_status cancelled reservation)
            (reservations d) in
        mkResult (set_reservations coll d)
          (json_success 200 "Reservation cancelled successfully" saved)
          (c1 ++ [Reservation_save id])%list
  end.

(** [updateReservationStatus], with [status] as [req.body] carries it. *)
Definition updateReservationStatus (now : Date) (id : ObjectId)
    (status : string) (d : Db) : Result :=
  match Status_of_string status with
  | None => mkResult d (json_error 400 "Invalid status") []
  | Some s =>
      let c1 := [Reservation_findByIdAndUpdate id] in
      match Reservation.findByIdAndUpdate now id s (reservations d) with
      | (None, _) => mkResult d (json_error 404 "Reservation not found") c1
      | (Some reservation, coll) =>
          mkResult (set_reservations coll d)
            (json_success 200 "Reservation status updated successfully" reservation) c1
      end
  end.

(** [adminCancelReservation]: no test on status or time before the save. *)
Definition adminCancelReservation (now : Date) (id : ObjectId) (d : Db) : Result :=
  let c1 := [Reservation_findById id] in
  match Reservation.findById (reservations d) id with
  | None => mkResult d (json_error 404 "Reservation not found") c1
  | Some reservation =>
      let '(saved, coll) :=
        Reservation.save now (Reservation.set_status cancelled reservation)
          (reservations d) in
      mkResult (set_reservations coll d)
        (json_success 200 "Reservation cancelled by admin" saved)
        (c1 ++ [Reservation_save id])%list
  end.

(** ** [backend/routes/reservationRoutes.js]

    - [router.post('/', createReservation)]
    - [router.patch('/:id/cancel', cancelReservation)]
    - [router.patch('/admin/:id/status', authorize('admin'), updateReservationStatus)]
    - [router.patch('/admin/:id/cancel', authorize('admin'), adminCancelReservation)] *)

Inductive Request :=
| POST_reservation (body : validations.createReservationBody)
| PATCH_cancel (id : ObjectId)
| PATCH_admin_status (id : ObjectId) (status : string)
| PATCH_admin_cancel (id : ObjectId).

Definition router (now : Date) (req_user : User) (req : Request) (d : Db) : Result :=
  match req with
  | POST_reservation body => createReservation now req_user body d
  | PATCH_cancel id => cancelReservation now req_user id d
  | PATCH_admin_status id status =>
      authorize [admin_role] req_user (updateReservationStatus now id status) d
  | PATCH_admin_cancel id =>
      authorize [admin_role] req_user (adminCancelReservation now id) d
  end.

(** A request as it reaches the server: the clock, the authenticated user
    and the route with its data. *)
Record Arrival := mkArrival { at_time : Date; by_user : User; request : Request }.

Definition serve (a : Arrival) (d : Db) : Db :=
  db (router (at_time a) (by_user a) (request a) d).

(** The database after a sequence of requests served one at a time, each
    handler running to its answer before the next request is taken. *)
Definition run (l : list Arrival) (d : Db) : Db := fold_left (fun d a => serve a d) l d.

(** The store with no reservation, over a room catalogue. *)
Definition empty_store (rs : list Room.doc) : Db := mkDb rs [] 0%nat.

(** ** Intervals, overlap and the booking invariants *)

(** Half-open intervals [[a,b)] and [[c,d)] overlap iff [a < d] and [c < b]. *)
Definition overlap (a b c d : Date) : Prop := a < d /\ c < b.

Definition overlapb (a b c d : Date) : bool := (a <? d) && (c <? b).

(** Two stored reservations hold the same slot: both active, same room,
    overlapping intervals. *)
Definition clash (x y : Reservation.doc) : bool :=
  Reservation.isActive x && Reservation.isActive y
  && Nat.eqb (Reservation.room x) (Reservation.room y)
  && overlapb (Reservation.startTime x) (Reservation.endTime x)
              (Reservation.startTime y) (Reservation.endTime y).

(** No two documents of the collection clash. *)
Fixpoint no_double_booking (coll : list Reservation.doc) : bool :=
  match coll with
  | [] => true
  | x :: rest => forallb (fun y => negb (clash x y)) rest && no_double_booking rest
  end.

(** Every stored interval is a proper one. *)
Definition proper_interval (x : Reservation.doc) : Prop :=
  Reservation.startTime x < Reservation.endTime x.

Definition well_formed (coll : list Reservation.doc) : Prop :=
  Forall proper_interval coll.

(** A request that puts a cancelled or completed reservation back to
    'pending' or 'confirmed' through the admin status route. *)
Definition reactivates (a : Arrival) (d : Db) : bool :=
  match request a with
  | PATCH_admin_status id status =>
      Role_eqb (role (by_user a)) admin_role
      && match Status_of_string status with
         | Some s => Reservation.status_in_pending_confirmed s
         | None => false
         end
      && match Reservation.findById (reservations d) id with
         | Some x => negb (Reservation.isActive x)
         | None => false
         end
  | _ => false
  end.

(** A sequence of requests none of which reactivates a reservation in the
    store it meets. *)
Fixpoint never_reactivates (l : list Arrival) (d : Db) : bool :=
  match l with
  | [] => true
  | a :: rest => negb (reactivates a d) && never_reactivates rest (serve a d)
  end.

(** Statuses by kind, as the controllers use them: 400 for input the
    request got wrong, 403 for a caller who is not allowed, 404 for a
    missing document, 409 for a taken slot. *)
Inductive Kind := BadInput | AccessDenied | NotFound | SlotConflict | Success | OtherKind.

Definition kind_of (r : Response) : Kind :=
  if statusCode r =? 400 then BadInput
  else if statusCode r =? 403 then AccessDenied
  else if statusCode r =? 404 then NotFound
  else if statusCode r =? 409 then SlotConflict
  else if (200 <=? statusCode r) && (statusCode r <? 300) then Success
  else OtherKind.

(** ** Sample data *)

Definition meeting_room : Room.doc := Room.mk 7%nat 10 true.

Definition alice : User := mkUser 1%nat user_role.
Definition bob : User := mkUser 2%nat user_role.
Definition root : User := mkUser 9%nat admin_role.

(** 01:00 is 3 600 000 ms; the sample day starts at 0. *)
Definition hour : Z := 60 * 60 * 1000.
Definition minute : Z := 60 * 1000.

(** A confirmed booking of the meeting room by alice, 10:00 to 11:00. *)
Definition ten_to_eleven : Reservation.doc :=
  Reservation.mk 0%nat 1%nat 7%nat (10 * hour) (11 * hour) (utf16 "Stand-up meeting") 4
    confirmed None 0 0.

(** ** Readings of the lifecycle and admission rules that the theorems
    below settle *)

(** The cancellation lead time, 2 hours in milliseconds. *)
Definition cancelLeadTime : Z := 2 * 60 * 60 * 1000.

(** The refusal of [cancelReservation] when [canBeCancelled] fails. *)
Definition lead_time_refusal : Response :=
  json_error 400
    "Reservation cannot be cancelled. Must be cancelled at least 2 hours before start time.".

(** "A refusal of the owner inside the lead-time window is an
    access-control refusal." *)
Definition lead_time_refusal_is_access_denied : Prop :=
  forall now u id d x,
    Reservation.findById (reservations d) id = Some x ->
    role u = user_role ->
    Reservation.user x = user_id u ->
    Reservation.status x = confirmed ->
    Reservation.startTime x - now < cancelLeadTime ->
    kind_of (response (cancelReservation now u id d)) = AccessDenied.

(** A confirmed booking of the same room by bob, 11:00 to 12:00. *)
Definition eleven_to_twelve : Reservation.doc :=
  Reservation.mk 1%nat 2%nat 7%nat (11 * hour) (12 * hour) (utf16 "Design review") 6
    confirmed None 0 0.

(** ** The admission rules, on integers *)

(** Some active reservation of the room overlaps the slot [[s,e)]. *)
Definition slot_taken (coll : list Reservation.doc) (roomId : ObjectId)
    (s e : Date) : Prop :=
  exists x, In x coll
            /\ Reservation.room x = roomId
            /\ Reservation.isActive x = true
            /\ overlap (Reservation.startTime x) (Reservation.endTime x) s e.

Definition minDuration : Z := 30 * 60 * 1000.
Definition maxDuration : Z := 8 * 60 * 60 * 1000.

(** The four rejections of a validated request and the document a granted
    one stores. *)
Definition capacity_exceeded (room : Room.doc) : Response :=
  json_error 400 ("Room capacity exceeded. Maximum capacity: "
                  ++ string_of_Z (Room.capacity room)).
Definition slot_unavailable : Response :=
  json_error 409 "Room is not available for the selected time slot".
Definition duration_too_short : Response :=
  json_error 400 "Minimum booking duration is 30 minutes".
Definition duration_too_long : Response :=
  json_error 400 "Maximum booking duration is 8 hours".
Definition room_unavailable : Response :=
  json_error 404 "Room not found or not available".

Definition granted (now : Date) (u : User) (v : validations.createReservationBody)
    (d : Db) : Reservation.doc :=
  Reservation.mk (nextId d) (user_id u) (validations.room v)
    (validations.startTime v) (validations.endTime v) (validations.purpose v)
    (validations.attendees v) confirmed (validations.specialRequirements v) now now.

(** "A request that breaks the duration bounds and overlaps an active
    reservation is rejected for its duration": the duration rule checked
    before the conflict lookup. *)
Definition duration_rule_precedes_conflict_lookup : Prop :=
  forall now u body d v room,
    well_formed (reservations d) ->
    validations.createReservationValidation now body = inr v ->
    Room.findById (rooms d) (validations.room body) = Some room ->
    Room.isActive room = true ->
    validations.attendees body <= Room.capacity room ->
    (validations.endTime body - validations.startTime body < minDuration
     \/ maxDuration < validations.endTime body - validations.startTime body) ->
    slot_taken (reservations d) (validations.room body)
      (validations.startTime body) (validations.endTime body) ->
    response (createReservation now u body d) = duration_too_short
    \/ response (createReservation now u body d) = duration_too_long.

(** Alice books the meeting room from 10:00 to 11:00 (asked at 00:00);
    bob then asks for ten minutes of it, from 10:00 to 10:10 (at 08:00). *)
Definition standup_body : validations.createReservationBody :=
  validations.mkBody 7%nat (10 * hour) (11 * hour) (utf16 "Stand-up meeting") 4 None.

Definition ten_minutes_body : validations.createReservationBody :=
  validations.mkBody 7%nat (10 * hour) (10 * hour + 10 * minute) (utf16 "Quick sync") 2 None.

(** Requests for the free meeting room at 14:00, asked at 08:00. *)
Definition half_hour_body : validations.createReservationBody :=
  validations.mkBody 7%nat (14 * hour) (14 * hour + 30 * minute) (utf16 "Interview") 2 None.

Definition full_house_body : validations.createReservationBody :=
  validations.mkBody 7%nat (14 * hour) (15 * hour) (utf16 "All hands") 10 None.

(** "After any sequence of requests on an empty store, no two active
    reservations of a room overlap." *)
Definition no_overlap_after_any_requests : Prop :=
  forall (rs : list Room.doc) (l : list Arrival),
    no_double_booking (reservations (run l (empty_store rs))) = true.

(** Alice books 10:00 to 11:00 and cancels; bob books the freed slot; the
    administrator then sets alice's reservation back to 'confirmed'. *)
Definition review_body : validations.createReservationBody :=
  validations.mkBody 7%nat (10 * hour) (11 * hour) (utf16 "Design review") 6 None.

Definition reactivation_requests : list Arrival :=
  [ mkArrival 0 alice (POST_reservation standup_body);
    mkArrival (1 * hour) alice (PATCH_cancel 0%nat);
    mkArrival (2 * hour) bob (POST_reservation review_body);
    mkArrival (3 * hour) root (PATCH_admin_status 0%nat "confirmed") ].

(** What the invariant looks at in a stored reservation. *)
Definition slot_of (x : Reservation.doc) : ObjectId * ObjectId * Date * Date * Status :=
  (Reservation._id x, Reservation.room x, Reservation.startTime x,
   Reservation.endTime x, Reservation.status x).

(** [x'] holds no more than [x]: same room and interval, active only if
    [x] is. *)
Definition holds_no_more (x' x : Reservation.doc) : Prop :=
  Reservation.room x' = Reservation.room x
  /\ Reservation.startTime x' = Reservation.startTime x
  /\ Reservation.endTime x' = Reservation.endTime x
  /\ (Reservation.isActive x' = true -> Reservation.isActive x = true).

Definition booking_invariant (d : Db) : Prop :=
  well_formed (reservations d) /\ no_double_booking (reservations d) = true.


(** * The rest of the reservation model and controllers *)

(** ** Further methods of the models ([backend/models/room.js]) *)

(** [roomSchema.methods.canAccommodate]: [peopleCount <= this.capacity] *)
Definition canAccommodate (room : Room.doc) (peopleCount : Z) : bool :=
  peopleCount <=? Room.capacity room.

(** The virtual [durationHours]:
    [(this.endTime - this.startTime) / (1000 * 60 * 60)] *)
Definition durationHours (x : Reservation.doc) : Q :=
  (inject_Z (Reservation.endTime x - Reservation.startTime x)
   / inject_Z (1000 * 60 * 60))%Q.

(** [reservationSchema.methods.isInProgress]:
    [now >= this.startTime && now <= this.endTime] *)
Definition isInProgress (now : Date) (x : Reservation.doc) : bool :=
  (Reservation.startTime x <=? now) && (now <=? Reservation.endTime x).

(** ** [getReservationById]

    [users] lists the ids of the User collection: [populate('user')] puts
    [null] in place of an owner whose document is gone, and reading
    [reservation.user._id] then throws into the [catch] branch. *)
Definition getReservationById (users : list ObjectId) (req_user : User)
    (id : ObjectId) (d : Db) : Result :=
  let c1 := [Reservation_findById id] in
  match Reservation.findById (reservations d) id with
  | None => mkResult d (json_error 404 "Reservation not found") c1
  | Some reservation =>
      if Role_eqb (role req_user) admin_role then
        mkResult d (mkResponse 200 "success" EmptyString (Some reservation)) c1
      else if negb (existsb (Nat.eqb (Reservation.user reservation)) users) then
        mkResult d (json_error 500 "Internal server error") c1
      else if negb (Nat.eqb (Reservation.user reservation) (user_id req_user)) then
        mkResult d
          (json_error 403 "Access denied. You can only view your own reservations.") c1
      else
        mkResult d (mkResponse 200 "success" EmptyString (Some reservation)) c1
  end.

(** ** What a request may and may not change *)

(** The fields of a reservation that no controller writes after creation. *)
Definition booking_of (x : Reservation.doc)
    : ObjectId * ObjectId * ObjectId * Date * Date * JSString * Z
      * option JSString * Date :=
  (Reservation._id x, Reservation.user x, Reservation.room x,
   Reservation.startTime x, Reservation.endTime x, Reservation.purpose x,
   Reservation.attendees x, Reservation.specialRequirements x,
   Reservation.createdAt x).

(** What every stored reservation owes to the checks at its creation, over
    the room catalogue [rs]. *)
Definition created_lawfully (rs : list Room.doc) (x : Reservation.doc) : Prop :=
  Reservation.startTime x < Reservation.endTime x
  /\ minDuration <= Reservation.endTime x - Reservation.startTime x <= maxDuration
  /\ (1 # 2 <= durationHours x <= inject_Z 8)%Q
  /\ 1 <= Reservation.attendees x
  /\ exists room, Room.findById rs (Reservation.room x) = Some room
                  /\ Room.isActive room = true
                  /\ canAccommodate room (Reservation.attendees x) = true.

(** The ids of the collection are pairwise distinct and all below the next
    fresh id. *)
Definition ids_fresh (d : Db) : Prop :=
  NoDup (map Reservation._id (reservations d))
  /\ Forall (fun x => (Reservation._id x < nextId d)%nat) (reservations d).

(** What holds of the store after any sequence of requests served one at
    a time, over the room catalogue [rs]. *)
Definition store_ok (rs : list Room.doc) (d : Db) : Prop :=
  rooms d = rs
  /\ ids_fresh d
  /\ nextId d = List.length (reservations d)
  /\ Forall (created_lawfully rs) (reservations d).

(** The names of the statuses, as the schema's [enum] and the JSON of a
    reservation spell them. *)
Definition string_of_Status (s : Status) : string :=
  match s with
  | pending => "pending"
  | confirmed => "confirmed"
  | cancelled => "cancelled"
  | completed => "completed"
  end.

Definition status_names : list string :=
  ["pending"; "confirmed"; "cancelled"; "completed"].

(** ** The availability endpoint ([checkAvailability] of the controller) *)

(** The body of [POST /api/reservations/check-availability], typed as the
    creation body is. *)
Record checkAvailabilityBody := mkCheck {
  check_room : ObjectId;
  check_startTime : Date;
  check_endTime : Date;
  excludeReservation : option ObjectId
}.

(** [checkAvailabilityValidation.validate(req.body)]: the schema sets no
    messages of its own, so the two date rules answer with Joi's.
    - [startTime: Joi.date().iso().greater('now').required()]
    - [endTime: Joi.date().iso().greater(Joi.ref('startTime')).required()] *)
Definition checkAvailabilityValidation (now : Date) (b : checkAvailabilityBody)
    : string + checkAvailabilityBody :=
  if negb (now <? check_startTime b) then
    inl (validations.label "startTime" ++ " must be greater than "
         ++ validations.label "now")
  else if negb (check_startTime b <? check_endTime b) then
    inl (validations.label "endTime" ++ " must be greater than "
         ++ validations.label "ref:startTime")
  else inr b.

(** [data] of the answer: [available], the room's id and capacity, and the
    [timeSlot]. *)
Record AvailabilityData := mkAvailability {
  available : bool;
  data_room : ObjectId;
  data_capacity : Z;
  timeSlot : Date * Date
}.

Record AvailabilityReply := mkReply {
  reply_code : Z;
  reply_status : string;
  reply_message : string;
  reply_data : option AvailabilityData
}.

Definition checkAvailability (now : Date) (body : checkAvailabilityBody) (d : Db)
    : AvailabilityReply :=
  match checkAvailabilityValidation now body with
  | inl msg => mkReply 400 "error" msg None
  | inr value =>
      let roomId := check_room value in
      match Room.findById (rooms d) roomId with
      | None => mkReply 404 "error" "Room not found or not available" None
      | Some room =>
          if negb (Room.isActive room) then
            mkReply 404 "error" "Room not found or not available" None
          else
            let isAvailable :=
              Reservation.checkAvailability (reservations d) roomId
                (check_startTime value) (check_endTime value)
                (excludeReservation value) in
            mkReply 200 "success" EmptyString
              (Some (mkAvailability isAvailable (Room._id room) (Room.capacity room)
                       (check_startTime value, check_endTime value)))
      end
  end.

(** ** Listing reservations: [getUserReservations], [getAllReservations] *)

Inductive SortKey := by_startTime | by_createdAt | by_updatedAt.

Definition SortKey_of_string (s : string) : option SortKey :=
  if String.eqb s "startTime" then Some by_startTime
  else if String.eqb s "createdAt" then Some by_createdAt
  else if String.eqb s "updatedAt" then Some by_updatedAt
  else None.

(** The query string, its numbers and dates already parsed. *)
Record reservationQuery := mkQuery {
  q_page : option Z;
  q_limit : option Z;
  q_status : option string;
  q_from : option Date;
  q_to : option Date;
  q_sortBy : option string;
  q_sortOrder : option string
}.

(** [value] of a validated query, defaults filled in; [desc] is
    [sortOrder === 'desc']. *)
Record reservationQueryValue := mkQueryValue {
  page : Z;
  limit : Z;
  status_filter : option Status;
  from : option Date;
  to : option Date;
  sortBy : SortKey;
  desc : bool
}.

(** [reservationQueryValidation.validate(req.query)]:
    - [page: Joi.number().integer().min(1).default(1)]
    - [limit: Joi.number().integer().min(1).max(50).default(10)]
    - [status: Joi.string().valid('pending','confirmed','cancelled','completed')]
    - [from], [to]: [Joi.date().iso()]
    - [sortBy: Joi.string().valid('startTime','createdAt','updatedAt').default('startTime')]
    - [sortOrder: Joi.string().valid('asc','desc').default('asc')] *)
Definition reservationQueryValidation (q : reservationQuery)
    : string + reservationQueryValue :=
  let p := match q_page q with Some p => p | None => 1 end in
  let l := match q_limit q with Some l => l | None => 10 end in
  if p <? 1 then
    inl (validations.label "page" ++ " must be greater than or equal to 1")
  else if l <? 1 then
    inl (validations.label "limit" ++ " must be greater than or equal to 1")
  else if 50 <? l then
    inl (validations.label "limit" ++ " must be less than or equal to 50")
  else
    match match q_status q with
          | None => Some None
          | Some s => option_map Some (Status_of_string s)
          end with
    | None =>
        inl (validations.label "status"
             ++ " must be one of [pending, confirmed, cancelled, completed]")
    | Some st =>
        match match q_sortBy q with
              | None => Some by_startTime
              | Some s => SortKey_of_string s
              end with
        | None =>
            inl (validations.label "sortBy"
                 ++ " must be one of [startTime, createdAt, updatedAt]")
        | Some key =>
            match q_sortOrder q with
            | None => inr (mkQueryValue p l st (q_from q) (q_to q) key false)
            | Some o =>
                if String.eqb o "asc" then
                  inr (mkQueryValue p l st (q_from q) (q_to q) key false)
                else if String.eqb o "desc" then
                  inr (mkQueryValue p l st (q_from q) (q_to q) key true)
                else
                  inl (validations.label "sortOrder" ++ " must be one of [asc, desc]")
            end
        end
    end.

(** The [filter] object of a listing: [user] (for [getUserReservations]
    only), [status] when given, and
    [startTime: { $gte: from, $lte: to }] with the bounds given. *)
Definition list_filter (owner : option ObjectId) (v : reservationQueryValue)
    (x : Reservation.doc) : bool :=
  match owner with
  | Some u => Nat.eqb (Reservation.user x) u
  | None => true
  end
  && match status_filter v with
     | Some s => Status_eqb (Reservation.status x) s
     | None => true
     end
  && match from v with Some f => f <=? Reservation.startTime x | None => true end
  && match to v with Some t => Reservation.startTime x <=? t | None => true end.

(** [pagination] of the answer. *)
Record Pagination := mkPagination {
  current : Z;
  total : Z;
  page_limit : Z;
  totalRecords : Z;
  hasNext : bool;
  hasPrev : bool
}.

Record Listing := mkListing {
  listing_code : Z;
  listing_message : string;
  listed : list Reservation.doc;
  pagination : option Pagination
}.

(** The order in which [.sort({ [sortBy]: 1 | -1 })] returns documents:
    MongoDB fixes it only up to ties, so the controllers take it as
    given. *)
Definition Sorter := SortKey -> bool -> list Reservation.doc -> list Reservation.doc.

(** The body shared by the two listings: [find(filter).sort(sort)
    .skip(skip).limit(limit)], [countDocuments(filter)] and the
    pagination block; [Math.ceil(total / limit)] is exact on the counts. *)
Definition list_reservations (sort : Sorter) (owner : option ObjectId)
    (q : reservationQuery) (d : Db) : Listing :=
  match reservationQueryValidation q with
  | inl msg => mkListing 400 msg [] None
  | inr v =>
      let matching := filter (list_filter owner v) (reservations d) in
      let skip := (page v - 1) * limit v in
      let found :=
        firstn (Z.to_nat (limit v))
          (skipn (Z.to_nat skip) (sort (sortBy v) (desc v) matching)) in
      let count := Z.of_nat (List.length matching) in
      let totalPages := Qceiling (inject_Z count / inject_Z (limit v)) in
      mkListing 200 EmptyString found
        (Some (mkPagination (page v) totalPages (limit v) count
                 (page v <? totalPages) (1 <? page v)))
  end.

Definition getUserReservations (sort : Sorter) (req_user : User)
    (q : reservationQuery) (d : Db) : Listing :=
  list_reservations sort (Some (user_id req_user)) q d.

Definition getAllReservations (sort : Sorter) (q : reservationQuery) (d : Db)
    : Listing :=
  list_reservations sort None q d.

(** One order a sort may return: insertion sort on the key, ties in the
    order of the collection. *)
Definition sort_key (k : SortKey) (x : Reservation.doc) : Date :=
  match k with
  | by_startTime => Reservation.startTime x
  | by_createdAt => Reservation.createdAt x
  | by_updatedAt => Reservation.updatedAt x
  end.

Fixpoint insert_sorted (k : SortKey) (desc : bool) (x : Reservation.doc)
    (l : list Reservation.doc) : list Reservation.doc :=
  match l with
  | [] => [x]
  | y :: rest =>
      if (if desc then sort_key k y <? sort_key k x else sort_key k x <? sort_key k y)
      then x :: l
      else y :: insert_sorted k desc x rest
  end.

Definition insertion_sort : Sorter :=
  fun k desc l => fold_right (insert_sorted k desc) [] l.

(** ** [getReservationStats]

    The bounds of today and of the week come from the server's local
    calendar ([setHours], [getDay], [setDate]) and are taken as given. *)
Record Stats := mkStats {
  totalReservations : nat;
  confirmedReservations : nat;
  pendingReservations : nat;
  cancelledReservations : nat;
  completedReservations : nat;
  todaysReservations : nat;
  weeklyReservations : nat;
  activeReservations : nat
}.

Definition countDocuments (filter : Reservation.doc -> bool)
    (coll : list Reservation.doc) : nat :=
  List.length (List.filter filter coll).

Definition getReservationStats (today tomorrow weekStart weekEnd : Date) (d : Db)
    : Stats :=
  let coll := reservations d in
  let with_status s := countDocuments (fun x => Status_eqb (Reservation.status x) s) coll in
  let confirmedReservations := with_status confirmed in
  let pendingReservations := with_status pending in
  mkStats
    (countDocuments (fun _ => true) coll)
    confirmedReservations
    pendingReservations
    (with_status cancelled)
    (with_status completed)
    (countDocuments
       (fun x => (today <=? Reservation.startTime x)
                 && (Reservation.startTime x <? tomorrow)
                 && Reservation.status_in_pending_confirmed (Reservation.status x))
       coll)
    (countDocuments
       (fun x => (weekStart <=? Reservation.startTime x)
                 && (Reservation.startTime x <? weekEnd))
       coll)
    (confirmedReservations + pendingReservations).

(** * Properties *)

(** ** Arithmetic of the time tests *)

Lemma canBeCancelled_iff (now : Date) (x : Reservation.doc) :
  Reservation.canBeCancelled now x = true
  <-> Reservation.status x = confirmed
      /\ now + 2 * 60 * 60 * 1000 < Reservation.startTime x.
Proof.
  unfold Reservation.canBeCancelled, Reservation.hoursUntilStart,
    Qle_bool, Qdiv, Qmult, Qinv, inject_Z. simpl.
  rewrite andb_true_iff, negb_true_iff, Z.leb_gt.
  split; intros [Hs Ht]; split; try lia.
  - destruct (Reservation.status x); simpl in Hs; congruence.
  - rewrite Hs. reflexivity.
Qed.

(** ** The conflict query *)

Lemma overlapb_iff (a b c d : Date) : overlapb a b c d = true <-> overlap a b c d.
Proof.
  unfold overlapb, overlap. rewrite andb_true_iff, !Z.ltb_lt. tauto.
Qed.

Lemma or_clauses_overlap (s e : Date) (x : Reservation.doc) :
  proper_interval x -> s < e ->
  Reservation.or_clauses s e x
  = overlapb (Reservation.startTime x) (Reservation.endTime x) s e.
Proof.
  unfold proper_interval, Reservation.or_clauses, overlapb. intros Hx Hse.
  destruct (Z.leb_spec s (Reservation.startTime x)),
    (Z.ltb_spec (Reservation.startTime x) e),
    (Z.ltb_spec s (Reservation.endTime x)),
    (Z.leb_spec (Reservation.endTime x) e),
    (Z.leb_spec (Reservation.startTime x) s),
    (Z.leb_spec e (Reservation.endTime x)); simpl; try reflexivity; lia.
Qed.

Lemma checkAvailability_true_iff coll roomId s e ex :
  Reservation.checkAvailability coll roomId s e ex = true
  <-> forall x, In x coll -> Reservation.conflictConditions roomId s e ex x = false.
Proof.
  unfold Reservation.checkAvailability, Reservation.findOne.
  destruct (find _ coll) as [y|] eqn:Hf.
  - split; [discriminate|]. intros H. apply find_some in Hf as [Hin Hy].
    rewrite (H y Hin) in Hy. discriminate.
  - split; [|reflexivity]. intros _ x Hin. exact (find_none _ _ Hf x Hin).
Qed.

Lemma checkAvailability_false_iff coll roomId s e ex :
  Reservation.checkAvailability coll roomId s e ex = false
  <-> exists x, In x coll /\ Reservation.conflictConditions roomId s e ex x = true.
Proof.
  unfold Reservation.checkAvailability, Reservation.findOne.
  destruct (find _ coll) as [y|] eqn:Hf.
  - split; [|reflexivity]. intros _. exists y. now apply find_some in Hf.
  - split; [discriminate|]. intros (x & Hin & Hx).
    rewrite (find_none _ _ Hf x Hin) in Hx. discriminate.
Qed.

(** On a well-formed collection the query without exclusion answers
    exactly whether an active reservation of the room overlaps the slot. *)
Lemma conflictConditions_clash roomId s e (x : Reservation.doc) :
  proper_interval x -> s < e ->
  Reservation.conflictConditions roomId s e None x
  = Nat.eqb (Reservation.room x) roomId
    && Reservation.isActive x
    && overlapb (Reservation.startTime x) (Reservation.endTime x) s e.
Proof.
  intros Hx Hse. unfold Reservation.conflictConditions, Reservation.isActive.
  rewrite (or_clauses_overlap s e x Hx Hse), andb_true_r. reflexivity.
Qed.

(** ** Lookups and write-backs *)

Lemma findById_In coll id x :
  Reservation.findById coll id = Some x -> In x coll /\ Reservation._id x = id.
Proof.
  unfold Reservation.findById. intros H. apply find_some in H as [Hin Hid].
  apply Nat.eqb_eq in Hid. auto.
Qed.

Lemma findById_replace coll id x x' :
  Reservation.findById coll id = Some x ->
  Reservation._id x' = id ->
  Reservation.findById (Reservation.replace x' coll) id = Some x'.
Proof.
  unfold Reservation.findById. intros Hf Hid. subst id.
  induction coll as [|y rest IH]; simpl in *; [discriminate|].
  destruct (Nat.eqb (Reservation._id y) (Reservation._id x')) eqn:E; simpl.
  - rewrite Nat.eqb_refl. reflexivity.
  - rewrite E. auto.
Qed.

Lemma replace_absent coll x' :
  Reservation.findById coll (Reservation._id x') = None ->
  Reservation.replace x' coll = coll.
Proof.
  unfold Reservation.findById.
  induction coll as [|y rest IH]; simpl; [reflexivity|].
  destruct (Nat.eqb (Reservation._id y) (Reservation._id x')); [discriminate|].
  intros H. rewrite (IH H). reflexivity.
Qed.

Lemma replace_replace coll x' x'' :
  Reservation._id x'' = Reservation._id x' ->
  Reservation.replace x'' (Reservation.replace x' coll) = Reservation.replace x'' coll.
Proof.
  intros Hid. induction coll as [|y rest IH]; simpl; [reflexivity|].
  rewrite Hid.
  destruct (Nat.eqb (Reservation._id y) (Reservation._id x')) eqn:E; simpl.
  - rewrite Hid, Nat.eqb_refl. reflexivity.
  - rewrite Hid, E, IH. reflexivity.
Qed.

(** ** The overlap test of [checkAvailability] *)

(** C2. For proper intervals, an existing reservation [[a,b)] and a
    candidate [[c,d)], the three-clause [$or] of the conflict query holds
    iff [a < d] and [c < b]; back-to-back intervals (the end of one equal to
    the start of the other) never match the query, whatever the room and
    the excluded id. *)
Theorem or_clauses_iff_single_inequality_pair
    (x : Reservation.doc) (c d : Date) :
  Reservation.startTime x < Reservation.endTime x ->
  c < d ->
  (Reservation.or_clauses c d x = true
   <-> Reservation.startTime x < d /\ c < Reservation.endTime x)
  /\ (Reservation.endTime x = c \/ d = Reservation.startTime x ->
      Reservation.or_clauses c d x = false
      /\ forall roomId ex, Reservation.conflictConditions roomId c d ex x = false).
Proof.
  intros Hx Hcd. split.
  - unfold Reservation.or_clauses.
    rewrite !orb_true_iff, !andb_true_iff, !Z.leb_le, !Z.ltb_lt. lia.
  - intros Hbb.
    assert (Hor : Reservation.or_clauses c d x = false).
    { unfold Reservation.or_clauses.
      rewrite !orb_false_iff, !andb_false_iff, !Z.leb_gt, !Z.ltb_ge. lia. }
    split; [exact Hor|]. intros roomId ex.
    unfold Reservation.conflictConditions. rewrite Hor.
    now rewrite andb_false_r.
Qed.

Lemma or_clauses_iff_single_inequality_pair_witness :
  (Reservation.or_clauses (11 * hour) (12 * hour) ten_to_eleven = true
   <-> Reservation.startTime ten_to_eleven < (12 * hour)
       /\ (11 * hour) < Reservation.endTime ten_to_eleven)
  /\ (Reservation.endTime ten_to_eleven = (11 * hour)
      \/ (12 * hour) = Reservation.startTime ten_to_eleven ->
      Reservation.or_clauses (11 * hour) (12 * hour) ten_to_eleven = false
      /\ forall roomId ex,
          Reservation.conflictConditions roomId (11 * hour) (12 * hour) ex ten_to_eleven
          = false).
Proof.
  apply (or_clauses_iff_single_inequality_pair ten_to_eleven (11 * hour) (12 * hour)).
  - vm_compute. reflexivity.
  - vm_compute. reflexivity.
Defined.

(** ** Cancellation by the owner and by an administrator *)

Lemma set_status_same (x : Reservation.doc) :
  Reservation.set_status (Reservation.status x) x = x.
Proof. destruct x. reflexivity. Qed.

Lemma cancelReservation_saves now u id d x :
  Reservation.findById (reservations d) id = Some x ->
  (role u = admin_role
   \/ Reservation.user x = user_id u /\ Reservation.canBeCancelled now x = true) ->
  cancelReservation now u id d
  = let x' := Reservation.set_updatedAt now (Reservation.set_status cancelled x) in
    mkResult (set_reservations (Reservation.replace x' (reservations d)) d)
      (json_success 200 "Reservation cancelled successfully" x')
      [Reservation_findById id; Reservation_save id].
Proof.
  intros Hf H. unfold cancelReservation. rewrite Hf.
  destruct H as [Ha | [Ho Hc]].
  - rewrite Ha. reflexivity.
  - rewrite Ho, Nat.eqb_refl, Hc. simpl. rewrite !andb_false_r. reflexivity.
Qed.

(** C4. For an existing reservation, a cancellation asked by its owner, not
    an administrator, is answered 200 iff the reservation is 'confirmed' and
    the clock is strictly more than 2 hours before its start; an
    administrator's cancellation is always answered 200. An accepted
    cancellation stores the reservation with status 'cancelled', a refused
    one leaves the database as it was. *)
Theorem cancelReservation_owner_iff_admin_always
    (now : Date) (u : User) (id : ObjectId) (d : Db) (x : Reservation.doc) :
  Reservation.findById (reservations d) id = Some x ->
  let r := cancelReservation now u id d in
  (role u = user_role -> Reservation.user x = user_id u ->
   (statusCode (response r) = 200
    <-> Reservation.status x = confirmed
        /\ now + cancelLeadTime < Reservation.startTime x))
  /\ (role u = admin_role -> statusCode (response r) = 200)
  /\ (statusCode (response r) = 200 ->
      exists x',
        Reservation.findById (reservations (db r)) id = Some x'
        /\ Reservation.status x' = cancelled
        /\ data (response r) = Some x')
  /\ (statusCode (response r) <> 200 -> db r = d).
Proof.
  intros Hf r.
  destruct (findById_In _ _ _ Hf) as [_ Hid].
  assert (Hsaved :
    role u = admin_role
    \/ Reservation.user x = user_id u /\ Reservation.canBeCancelled now x = true ->
    statusCode (response r) = 200
    /\ exists x',
        Reservation.findById (reservations (db r)) id = Some x'
        /\ Reservation.status x' = cancelled
        /\ data (response r) = Some x').
  { intros H. subst r. rewrite (cancelReservation_saves now u id d x Hf H).
    simpl. split; [reflexivity|]. eexists. split; [eapply findById_replace; [exact Hf | exact Hid] |].
    split; reflexivity. }
  split; [|split; [|split]].
  - intros Hrole Hown. rewrite <- (canBeCancelled_iff now x). split.
    + intros H200. destruct (Reservation.canBeCancelled now x) eqn:Hc; [reflexivity|].
      subst r. unfold cancelReservation in H200. rewrite Hf, Hrole, Hown in H200.
      rewrite Nat.eqb_refl, Hc in H200. simpl in H200. discriminate.
    + intros Hc. apply Hsaved. right. split; assumption.
  - intros Hadmin. apply Hsaved. left. assumption.
  - intros H200. subst r. unfold cancelReservation in *. rewrite Hf in *.
    destruct (negb (Role_eqb (role u) admin_role)
              && negb (Nat.eqb (Reservation.user x) (user_id u))); [discriminate|].
    destruct (negb (Role_eqb (role u) admin_role)
              && negb (Reservation.canBeCancelled now x)); [discriminate|].
    simpl. eexists. split; [eapply findById_replace; [exact Hf | exact Hid] |].
    split; reflexivity.
  - intros Hne. subst r. unfold cancelReservation in *. rewrite Hf in *.
    destruct (negb (Role_eqb (role u) admin_role)
              && negb (Nat.eqb (Reservation.user x) (user_id u))); [reflexivity|].
    destruct (negb (Role_eqb (role u) admin_role)
              && negb (Reservation.canBeCancelled now x)); [reflexivity|].
    simpl in Hne. congruence.
Qed.

Lemma cancelReservation_owner_iff_admin_always_witness :
  let d := mkDb [meeting_room] [ten_to_eleven] 1%nat in
  let r := cancelReservation (7 * hour) alice 0%nat d in
  (role alice = user_role -> Reservation.user ten_to_eleven = user_id alice ->
   (statusCode (response r) = 200
    <-> Reservation.status ten_to_eleven = confirmed
        /\ 7 * hour + cancelLeadTime < Reservation.startTime ten_to_eleven))
  /\ (role alice = admin_role -> statusCode (response r) = 200)
  /\ (statusCode (response r) = 200 ->
      exists x',
        Reservation.findById (reservations (db r)) 0%nat = Some x'
        /\ Reservation.status x' = cancelled
        /\ data (response r) = Some x')
  /\ (statusCode (response r) <> 200 -> db r = d).
Proof.
  apply (cancelReservation_owner_iff_admin_always (7 * hour) alice 0%nat
           (mkDb [meeting_room] [ten_to_eleven] 1%nat) ten_to_eleven).
  reflexivity.
Defined.

Lemma validation_message_not_lead_time now (b : validations.createReservationBody) msg :
  validations.createReservationValidation now b = inl msg ->
  msg <> message lead_time_refusal.
Proof.
  unfold validations.createReservationValidation.
  destruct (negb _); [intros E; injection E as <-; discriminate|].
  destruct (negb _); [intros E; injection E as <-; discriminate|].
  destruct (Nat.eqb _ 0); [intros E; injection E as <-; discriminate|].
  destruct (Nat.ltb _ 5); [intros E; injection E as <-; discriminate|].
  destruct (Nat.ltb 200 _); [intros E; injection E as <-; discriminate|].
  destruct (_ <? 1); [intros E; injection E as <-; discriminate|].
  destruct (validations.specialRequirements b) as [sr|]; [|discriminate].
  destruct (Nat.ltb 500 _); [intros E; injection E as <-; discriminate|discriminate].
Qed.

Lemma createReservation_message_not_lead_time now u body d :
  message (response (createReservation now u body d)) <> message lead_time_refusal.
Proof.
  unfold createReservation.
  destruct (validations.createReservationValidation now body) as [msg|v] eqn:Hv.
  { simpl. exact (validation_message_not_lead_time now body msg Hv). }
  destruct (Room.findById (rooms d) (validations.room v)) as [room|]; [|discriminate].
  destruct (negb (Room.isActive room)); [discriminate|].
  destruct (_ >? _); [discriminate|].
  destruct (negb (Reservation.checkAvailability _ _ _ _ _)); [discriminate|].
  destruct (negb (Qle_bool _ _)); [discriminate|].
  destruct (negb (Qle_bool _ _)); discriminate.
Qed.

(** C5, as the code has it. When the owner, not an administrator, asks to
    cancel a 'confirmed' reservation that starts 2 hours from now or sooner,
    the request is refused with status 400 and the lead-time message: a
    refusal of the bad-input kind, not of the access-denied kind (403) that
    the ownership test answers, and not the not-found kind (404). The
    database is unchanged. The message tells this refusal from every other
    400: no answer of [createReservation] and no answer of
    [updateReservationStatus] carries it, an answer of [cancelReservation]
    is this refusal exactly when its status is 400, and
    [adminCancelReservation] never answers 400. *)
Theorem cancelReservation_lead_time_refusal_is_400
    (now : Date) (u : User) (id : ObjectId) (d : Db) (x : Reservation.doc) :
  Reservation.findById (reservations d) id = Some x ->
  role u = user_role ->
  Reservation.user x = user_id u ->
  Reservation.status x = confirmed ->
  Reservation.startTime x - now <= cancelLeadTime ->
  let r := cancelReservation now u id d in
  response r
  = json_error 400
      "Reservation cannot be cancelled. Must be cancelled at least 2 hours before start time."
  /\ kind_of (response r) = BadInput
  /\ kind_of (response r) <> AccessDenied
  /\ kind_of (response r) <> NotFound
  /\ db r = d
  /\ (forall now' u' body' d',
        message (response (createReservation now' u' body' d'))
        <> message (response r))
  /\ (forall now' id' status' d',
        message (response (updateReservationStatus now' id' status' d'))
        <> message (response r))
  /\ (forall now' u' id' d',
        statusCode (response (cancelReservation now' u' id' d')) = 400
        <-> response (cancelReservation now' u' id' d') = response r)
  /\ (forall now' id' d',
        statusCode (response (adminCancelReservation now' id' d')) <> 400).
Proof.
  intros Hf Hrole Hown Hst Hlate r.
  assert (Hc : Reservation.canBeCancelled now x = false).
  { destruct (Reservation.canBeCancelled now x) eqn:E; [|reflexivity].
    apply canBeCancelled_iff in E as [_ E]. unfold cancelLeadTime in Hlate. lia. }
  assert (Hr : response r = lead_time_refusal).
  { subst r. unfold cancelReservation.
    rewrite Hf, Hrole, Hown, Nat.eqb_refl, Hc. reflexivity. }
  assert (Hdb : db r = d).
  { subst r. unfold cancelReservation.
    rewrite Hf, Hrole, Hown, Nat.eqb_refl, Hc. reflexivity. }
  rewrite Hr.
  split; [reflexivity|]. split; [reflexivity|].
  split; [discriminate|]. split; [discriminate|]. split; [exact Hdb|].
  split; [|split; [|split]].
  - intros now' u' body' d'. apply createReservation_message_not_lead_time.
  - intros now' id' status' d'.
    unfold updateReservationStatus, Reservation.findByIdAndUpdate.
    destruct (Status_of_string status'); [|discriminate].
    destruct (Reservation.findById (reservations d') id'); discriminate.
  - intros now' u' id' d'. unfold cancelReservation.
    destruct (Reservation.findById (reservations d') id');
      [|split; discriminate].
    destruct (_ && negb (Nat.eqb _ _)); [split; discriminate|].
    destruct (_ && negb (Reservation.canBeCancelled _ _));
      [split; reflexivity | split; discriminate].
  - intros now' id' d'. unfold adminCancelReservation.
    destruct (Reservation.findById (reservations d') id'); discriminate.
Qed.

Lemma cancelReservation_lead_time_refusal_is_400_witness :
  let d := mkDb [meeting_room] [ten_to_eleven] 1%nat in
  let r := cancelReservation (9 * hour) alice 0%nat d in
  response r = lead_time_refusal
  /\ kind_of (response r) = BadInput
  /\ db r = d
  /\ message (response (updateReservationStatus 0 0%nat "postponed" d))
     <> message (response r).
Proof.
  intros d r.
  assert (Hlate : Reservation.startTime ten_to_eleven - 9 * hour <= cancelLeadTime).
  { vm_compute. discriminate. }
  destruct (cancelReservation_lead_time_refusal_is_400 (9 * hour) alice 0%nat
              (mkDb [meeting_room] [ten_to_eleven] 1%nat) ten_to_eleven
              eq_refl eq_refl eq_refl eq_refl Hlate)
    as (H1 & H2 & _ & _ & H5 & _ & H7 & _).
  split; [exact H1|]. split; [exact H2|]. split; [exact H5|].
  exact (H7 0 0%nat "postponed" d).
Defined.

(** The owner of the 10:00 booking asks to cancel it at 09:00, one hour
    ahead: the answer is 400, so the refusal is not of the access-denied
    kind. *)
Lemma lead_time_refusal_is_not_access_denied :
  let d := mkDb [meeting_room] [ten_to_eleven] 1%nat in
  let r := cancelReservation (9 * hour) alice 0%nat d in
  Reservation.findById (reservations d) 0%nat = Some ten_to_eleven
  /\ role alice = user_role
  /\ Reservation.user ten_to_eleven = user_id alice
  /\ Reservation.status ten_to_eleven = confirmed
  /\ Reservation.startTime ten_to_eleven - 9 * hour < cancelLeadTime
  /\ statusCode (response r) = 400
  /\ kind_of (response r) <> AccessDenied
  /\ ~ lead_time_refusal_is_access_denied.
Proof.
  repeat split; try discriminate.
  intros H.
  specialize (H (9 * hour) alice 0%nat
                (mkDb [meeting_room] [ten_to_eleven] 1%nat) ten_to_eleven).
  vm_compute in H.
  assert (E : BadInput = AccessDenied) by (apply H; reflexivity).
  discriminate E.
Qed.

(** C6. For an existing reservation and a caller who is not an
    administrator and is not its owner, the cancellation is refused with
    status 403, whatever the reservation's status and start time, before
    the lead-time test is looked at, and the database is unchanged. *)
Theorem cancelReservation_ownership_precedes_lead_time
    (now : Date) (u : User) (id : ObjectId) (d : Db) (x : Reservation.doc) :
  Reservation.findById (reservations d) id = Some x ->
  role u = user_role ->
  Reservation.user x <> user_id u ->
  let r := cancelReservation now u id d in
  response r
  = json_error 403 "Access denied. You can only cancel your own reservations."
  /\ kind_of (response r) = AccessDenied
  /\ db r = d
  /\ Reservation.findById (reservations (db r)) id = Some x
  /\ calls r = [Reservation_findById id].
Proof.
  intros Hf Hrole Hother r. subst r. unfold cancelReservation.
  apply Nat.eqb_neq in Hother. rewrite Hf, Hrole, Hother. simpl.
  repeat split. exact Hf.
Qed.

Lemma cancelReservation_ownership_precedes_lead_time_witness :
  let d := mkDb [meeting_room] [ten_to_eleven] 1%nat in
  let r := cancelReservation (7 * hour) bob 0%nat d in
  response r
  = json_error 403 "Access denied. You can only cancel your own reservations."
  /\ kind_of (response r) = AccessDenied
  /\ db r = d
  /\ Reservation.findById (reservations (db r)) 0%nat = Some ten_to_eleven
  /\ calls r = [Reservation_findById 0%nat].
Proof.
  apply (cancelReservation_ownership_precedes_lead_time (7 * hour) bob 0%nat
           (mkDb [meeting_room] [ten_to_eleven] 1%nat) ten_to_eleven).
  - reflexivity.
  - reflexivity.
  - vm_compute. discriminate.
Defined.

Lemma resave_set_status (t t1 : Date) (s : Status) (x : Reservation.doc) :
  Reservation.set_updatedAt t
    (Reservation.set_status s (Reservation.set_updatedAt t1 x))
  = Reservation.set_updatedAt t (Reservation.set_status s x).
Proof. reflexivity. Qed.

(** C10. For an existing reservation that is already 'cancelled',
    [adminCancelReservation] answers 200 and the stored reservation is the
    same one, still 'cancelled', with only [updatedAt] refreshed by the save
    hook; and cancelling twice leaves the database exactly as cancelling
    once at the time of the second call. *)
Theorem adminCancelReservation_recancel_idempotent
    (t1 t2 : Date) (id : ObjectId) (d : Db) (x : Reservation.doc) :
  Reservation.findById (reservations d) id = Some x ->
  Reservation.status x = cancelled ->
  let r1 := adminCancelReservation t1 id d in
  statusCode (response r1) = 200
  /\ body_status (response r1) = "success"
  /\ Reservation.findById (reservations (db r1)) id
     = Some (Reservation.set_updatedAt t1 x)
  /\ Reservation.status (Reservation.set_updatedAt t1 x) = cancelled
  /\ db (adminCancelReservation t2 id (db r1)) = db (adminCancelReservation t2 id d)
  /\ db (adminCancelReservation t1 id (db r1)) = db r1.
Proof.
  intros Hf Hst r1.
  destruct (findById_In _ _ _ Hf) as [_ Hid].
  assert (Hx : Reservation.set_status cancelled x = x)
    by (rewrite <- Hst; apply set_status_same).
  assert (Hf1 : Reservation.findById (reservations (db r1)) id
                = Some (Reservation.set_updatedAt t1 x)).
  { subst r1. unfold adminCancelReservation. rewrite Hf. simpl. rewrite Hx.
    eapply findById_replace; [exact Hf | exact Hid]. }
  assert (Htwice : forall t,
    db (adminCancelReservation t id (db r1)) = db (adminCancelReservation t id d)).
  { intros t. unfold adminCancelReservation at 1. rewrite Hf1.
    subst r1. unfold adminCancelReservation. rewrite Hf. simpl.
    unfold set_reservations. simpl. f_equal.
    rewrite Hx, (resave_set_status t t1 cancelled x), Hx.
    apply replace_replace. reflexivity. }
  repeat split.
  - subst r1. unfold adminCancelReservation. rewrite Hf. reflexivity.
  - subst r1. unfold adminCancelReservation. rewrite Hf. reflexivity.
  - exact Hf1.
  - exact Hst.
  - apply Htwice.
  - apply Htwice.
Qed.

Lemma adminCancelReservation_recancel_idempotent_witness :
  let x := Reservation.set_status cancelled ten_to_eleven in
  let d := mkDb [meeting_room] [x] 1%nat in
  let r1 := adminCancelReservation (8 * hour) 0%nat d in
  statusCode (response r1) = 200
  /\ body_status (response r1) = "success"
  /\ Reservation.findById (reservations (db r1)) 0%nat
     = Some (Reservation.set_updatedAt (8 * hour) x)
  /\ Reservation.status (Reservation.set_updatedAt (8 * hour) x) = cancelled
  /\ db (adminCancelReservation (9 * hour) 0%nat (db r1))
     = db (adminCancelReservation (9 * hour) 0%nat d)
  /\ db (adminCancelReservation (8 * hour) 0%nat (db r1)) = db r1.
Proof.
  apply (adminCancelReservation_recancel_idempotent (8 * hour) (9 * hour) 0%nat
           (mkDb [meeting_room] [Reservation.set_status cancelled ten_to_eleven] 1%nat)
           (Reservation.set_status cancelled ten_to_eleven)); reflexivity.
Defined.

(** ** Excluding a reservation from the conflict query *)

Lemma conflictConditions_exclude roomId s e E (x : Reservation.doc) :
  Reservation.conflictConditions roomId s e (Some E) x
  = negb (Nat.eqb (Reservation._id x) E)
    && Reservation.conflictConditions roomId s e None x.
Proof.
  unfold Reservation.conflictConditions.
  rewrite andb_true_r. apply andb_comm.
Qed.

Lemma findOne_exclude coll roomId s e E :
  Reservation.findOne coll (Reservation.conflictConditions roomId s e (Some E))
  = Reservation.findOne
      (filter (fun x => negb (Nat.eqb (Reservation._id x) E)) coll)
      (Reservation.conflictConditions roomId s e None).
Proof.
  unfold Reservation.findOne.
  induction coll as [|x rest IH]; simpl; [reflexivity|].
  rewrite conflictConditions_exclude.
  destruct (Nat.eqb (Reservation._id x) E); simpl.
  - exact IH.
  - destruct (Reservation.conflictConditions roomId s e None x);
      [reflexivity | exact IH].
Qed.

(** C9. [checkAvailability] with an excluded id [E] answers as the query
    without exclusion does on the collection from which the documents with
    id [E] are removed, so the reservation [E] never matches the query; and
    on a collection of proper intervals, re-checking a stored reservation's
    own room and interval with its own id excluded answers available
    whenever no active reservation of that room with another id overlaps
    it. *)
Theorem checkAvailability_excludes_self
    (coll : list Reservation.doc) (roomId : ObjectId) (s e : Date) (E : ObjectId) :
  Reservation.checkAvailability coll roomId s e (Some E)
  = Reservation.checkAvailability
      (filter (fun x => negb (Nat.eqb (Reservation._id x) E)) coll)
      roomId s e None
  /\ (forall x, Reservation._id x = E ->
        Reservation.conflictConditions roomId s e (Some E) x = false)
  /\ (forall r,
        well_formed coll ->
        In r coll ->
        Reservation._id r = E ->
        (forall y, In y coll ->
           Reservation._id y <> E ->
           Reservation.isActive y = true ->
           Reservation.room y = Reservation.room r ->
           ~ overlap (Reservation.startTime y) (Reservation.endTime y)
               (Reservation.startTime r) (Reservation.endTime r)) ->
        Reservation.checkAvailability coll (Reservation.room r)
          (Reservation.startTime r) (Reservation.endTime r) (Some E) = true).
Proof.
  split; [|split].
  - unfold Reservation.checkAvailability. rewrite findOne_exclude. reflexivity.
  - intros x Hx. rewrite conflictConditions_exclude.
    apply Nat.eqb_eq in Hx. rewrite Hx. reflexivity.
  - intros r Hwf Hin Hid Hothers.
    apply checkAvailability_true_iff. intros y Hy.
    rewrite conflictConditions_exclude.
    destruct (Nat.eqb (Reservation._id y) E) eqn:Hne; [reflexivity|].
    apply Nat.eqb_neq in Hne. simpl.
    assert (Hpy : proper_interval y) by (eapply Forall_forall; eauto).
    assert (Hpr : proper_interval r) by (eapply Forall_forall; eauto).
    rewrite (conflictConditions_clash _ _ _ y Hpy Hpr).
    destruct (Nat.eqb (Reservation.room y) (Reservation.room r)) eqn:Hroom;
      [|reflexivity].
    destruct (Reservation.isActive y) eqn:Hact; [|reflexivity].
    apply Nat.eqb_eq in Hroom. simpl.
    destruct (overlapb _ _ _ _) eqn:Hov; [|reflexivity].
    apply overlapb_iff in Hov. exfalso. exact (Hothers y Hy Hne Hact Hroom Hov).
Qed.

Lemma checkAvailability_excludes_self_witness :
  Reservation.checkAvailability [ten_to_eleven; eleven_to_twelve]
    (Reservation.room ten_to_eleven) (Reservation.startTime ten_to_eleven)
    (Reservation.endTime ten_to_eleven) (Some 0%nat) = true.
Proof.
  apply (proj2 (proj2 (checkAvailability_excludes_self
                         [ten_to_eleven; eleven_to_twelve] 7%nat
                         (10 * hour) (11 * hour) 0%nat)) ten_to_eleven).
  - repeat constructor.
  - left. reflexivity.
  - reflexivity.
  - intros y [<- | [<- | []]] Hne _ _ [H1 H2].
    + apply Hne. reflexivity.
    + vm_compute in H1. discriminate H1.
Defined.

(** ** Admission: [createReservation] *)

Lemma durationMinutes_min (s e : Date) :
  negb (Qle_bool (inject_Z 30) (durationMinutes s e)) = (e - s <? minDuration).
Proof.
  unfold durationMinutes, Qle_bool, Qdiv, Qmult, Qinv, inject_Z, minDuration. simpl.
  destruct (Z.leb_spec 30000 ((e - s) * 1)), (Z.ltb_spec (e - s) 1800000);
    simpl; try reflexivity; lia.
Qed.

Lemma durationMinutes_max (s e : Date) :
  negb (Qle_bool (durationMinutes s e) (inject_Z (8 * 60))) = (maxDuration <? e - s).
Proof.
  unfold durationMinutes, Qle_bool, Qdiv, Qmult, Qinv, inject_Z, maxDuration. simpl.
  destruct (Z.ltb_spec 28800000 (e - s)); simpl;
    [apply negb_true_iff, Z.leb_gt | apply negb_false_iff, Z.leb_le]; lia.
Qed.

Lemma validation_accepts now (b v : validations.createReservationBody) :
  validations.createReservationValidation now b = inr v ->
  now < validations.startTime b
  /\ validations.startTime b < validations.endTime b
  /\ 1 <= validations.attendees b
  /\ validations.room v = validations.room b
  /\ validations.startTime v = validations.startTime b
  /\ validations.endTime v = validations.endTime b
  /\ validations.attendees v = validations.attendees b.
Proof.
  unfold validations.createReservationValidation.
  destruct (Z.ltb_spec now (validations.startTime b)); simpl; [|discriminate].
  destruct (Z.ltb_spec (validations.startTime b) (validations.endTime b));
    simpl; [|discriminate].
  destruct (Nat.eqb _ 0); [discriminate|].
  destruct (Nat.ltb _ 5); [discriminate|].
  destruct (Nat.ltb 200 _); [discriminate|].
  destruct (Z.ltb_spec (validations.attendees b) 1); [discriminate|].
  destruct (validations.specialRequirements b) as [sr|].
  - destruct (Nat.ltb 500 _); [discriminate|].
    intros E. injection E as <-. simpl. repeat split; auto; lia.
  - intros E. injection E as <-. simpl. repeat split; auto; lia.
Qed.

Lemma createReservation_validated now u body d v room :
  validations.createReservationValidation now body = inr v ->
  Room.findById (rooms d) (validations.room v) = Some room ->
  Room.isActive room = true ->
  createReservation now u body d
  = let s := validations.startTime v in
    let e := validations.endTime v in
    let c1 := [Room_findById (validations.room v)] in
    let c2 := [Room_findById (validations.room v);
               Reservation_checkAvailability (validations.room v) s e] in
    if Room.capacity room <? validations.attendees v then
      mkResult d (capacity_exceeded room) c1
    else if negb (Reservation.checkAvailability (reservations d)
                    (validations.room v) s e None) then
      mkResult d slot_unavailable c2
    else if e - s <? minDuration then mkResult d duration_too_short c2
    else if maxDuration <? e - s then mkResult d duration_too_long c2
    else
      mkResult
        (mkDb (rooms d) (reservations d ++ [granted now u v d])%list (S (nextId d)))
        (json_success 201 "Reservation created successfully" (granted now u v d))
        [Room_findById (validations.room v);
         Reservation_checkAvailability (validations.room v) s e;
         Reservation_create (nextId d)].
Proof.
  intros Hv Hroom Hact. unfold createReservation.
  rewrite Hv, Hroom, Hact. simpl.
  rewrite Z.gtb_ltb, durationMinutes_min, durationMinutes_max.
  reflexivity.
Qed.

Lemma checkAvailability_slot_taken coll roomId s e :
  well_formed coll -> s < e ->
  Reservation.checkAvailability coll roomId s e None = false
  <-> slot_taken coll roomId s e.
Proof.
  intros Hwf Hse. rewrite checkAvailability_false_iff. unfold slot_taken.
  split; intros (x & Hin & Hx); exists x; (split; [exact Hin|]);
    assert (Hp : proper_interval x) by (eapply Forall_forall; eauto);
    rewrite (conflictConditions_clash roomId s e x Hp Hse) in *.
  - apply andb_true_iff in Hx as [Hx Hov].
    apply andb_true_iff in Hx as [Hr Ha].
    apply Nat.eqb_eq in Hr. apply overlapb_iff in Hov. auto.
  - destruct Hx as (Hr & Ha & Hov).
    apply Nat.eqb_eq in Hr. apply overlapb_iff in Hov.
    rewrite Hr, Ha, Hov. reflexivity.
Qed.

(** C3, as the code has it. For a body whose room id is well formed (the
    first rule of the schema, which the typed body takes as given) and a
    store of proper intervals, [createReservation] checks, in this order:
    start strictly after now; end after start; the remaining rules of the
    body schema, among them at least one attendee (these three steps are
    the Joi schema: a failure is answered 400 with Joi's first message,
    with no database call); the room exists and is active; the attendees
    fit the capacity; the slot is free; the duration is at least 30
    minutes; the duration is at most 8 hours. The first rule broken
    decides the answer and nothing is stored. A request that overlaps an
    active reservation is answered 409 whatever its duration, and the
    conflict lookup runs exactly when the schema, room and capacity rules
    pass. *)
Theorem createReservation_first_violated_rule
    (now : Date) (u : User) (body : validations.createReservationBody) (d : Db) :
  well_formed (reservations d) ->
  let r := createReservation now u body d in
  let roomId := validations.room body in
  let s := validations.startTime body in
  let e := validations.endTime body in
  let n := validations.attendees body in
  let lookup := Reservation_checkAvailability roomId s e in
  (forall msg, validations.createReservationValidation now body = inl msg ->
     response r = json_error 400 msg /\ calls r = [] /\ db r = d)
  /\ (s <= now ->
      validations.createReservationValidation now body
      = inl "Start time must be in the future")
  /\ (now < s -> e <= s ->
      validations.createReservationValidation now body
      = inl "End time must be after start time")
  /\ (forall v, validations.createReservationValidation now body = inr v ->
      (now < s /\ s < e /\ 1 <= n)
      /\ (Room.findById (rooms d) roomId = None
          \/ (exists room, Room.findById (rooms d) roomId = Some room
                           /\ Room.isActive room = false) ->
          response r = room_unavailable
          /\ calls r = [Room_findById roomId] /\ db r = d)
      /\ (forall room,
            Room.findById (rooms d) roomId = Some room ->
            Room.isActive room = true ->
            (Room.capacity room < n ->
             response r = capacity_exceeded room
             /\ calls r = [Room_findById roomId] /\ db r = d)
            /\ (n <= Room.capacity room ->
                (slot_taken (reservations d) roomId s e ->
                 response r = slot_unavailable
                 /\ calls r = [Room_findById roomId; lookup] /\ db r = d)
                /\ (~ slot_taken (reservations d) roomId s e ->
                    (e - s < minDuration ->
                     response r = duration_too_short
                     /\ calls r = [Room_findById roomId; lookup] /\ db r = d)
                    /\ (maxDuration < e - s ->
                        response r = duration_too_long
                        /\ calls r = [Room_findById roomId; lookup] /\ db r = d)
                    /\ (minDuration <= e - s <= maxDuration ->
                        response r
                        = json_success 201 "Reservation created successfully"
                            (granted now u v d)
                        /\ calls r = [Room_findById roomId; lookup;
                                      Reservation_create (nextId d)]
                        /\ reservations (db r)
                           = (reservations d ++ [granted now u v d])%list)))))
  /\ (In lookup (calls r)
      <-> exists v room,
            validations.createReservationValidation now body = inr v
            /\ Room.findById (rooms d) roomId = Some room
            /\ Room.isActive room = true
            /\ n <= Room.capacity room).
Proof.
  intros Hwf r roomId s e n lookup.
  split; [|split; [|split; [|split]]].
  - intros msg Hv. subst r. unfold createReservation. rewrite Hv. auto.
  - intros Hs. unfold validations.createReservationValidation.
    destruct (Z.ltb_spec now (validations.startTime body)); [subst s; lia|reflexivity].
  - intros Hs He. unfold validations.createReservationValidation.
    destruct (Z.ltb_spec now (validations.startTime body)); [|subst s; lia].
    destruct (Z.ltb_spec (validations.startTime body) (validations.endTime body));
      [subst s e; lia|reflexivity].
  - intros v Hv.
    destruct (validation_accepts now body v Hv)
      as (Hnow & Hse & Hn & Er & Es & Ee & En).
    split; [unfold s, e, n; lia|].
    split.
    + intros Hroom. subst r. unfold createReservation. rewrite Hv, Er. fold roomId.
      destruct Hroom as [Hnone | (room & Hsome & Hinactive)].
      * rewrite Hnone. auto.
      * rewrite Hsome, Hinactive. auto.
    + intros room Hroom Hact.
      assert (Hr : r = createReservation now u body d) by reflexivity.
      unfold roomId in Hroom. rewrite <- Er in Hroom.
      rewrite (createReservation_validated now u body d v room Hv Hroom Hact) in Hr.
      rewrite Er, Es, Ee, En in Hr. fold roomId s e n lookup in Hr. simpl in Hr.
      split.
      * intros Hcap. apply Z.ltb_lt in Hcap. rewrite Hcap in Hr. rewrite Hr. auto.
      * intros Hcap. apply Z.ltb_ge in Hcap. rewrite Hcap in Hr.
        pose proof (checkAvailability_slot_taken (reservations d) roomId s e Hwf Hse)
          as Hslot.
        split.
        -- intros Htaken. apply Hslot in Htaken. rewrite Htaken in Hr.
           rewrite Hr. auto.
        -- intros Hfree.
           destruct (Reservation.checkAvailability (reservations d) roomId s e None)
             eqn:Hav; [|exfalso; apply Hfree, Hslot; reflexivity].
           simpl in Hr. split; [|split].
           ++ intros Hshort. apply Z.ltb_lt in Hshort. rewrite Hshort in Hr.
              rewrite Hr. auto.
           ++ intros Hlong.
              destruct (Z.ltb_spec (e - s) minDuration);
                [unfold minDuration, maxDuration in *; lia|].
              apply Z.ltb_lt in Hlong. rewrite Hlong in Hr. rewrite Hr. auto.
           ++ intros [Hmin Hmax].
              apply Z.ltb_ge in Hmin. apply Z.ltb_ge in Hmax.
              rewrite Hmin, Hmax in Hr. rewrite Hr. auto.
  - subst r. unfold createReservation.
    destruct (validations.createReservationValidation now body) as [msg|v] eqn:Hv.
    + simpl. split; [tauto|]. intros (v & room & E & _). discriminate E.
    + destruct (validation_accepts now body v Hv)
        as (Hnow & Hse & Hn & Er & Es & Ee & En).
      rewrite Er, Es, Ee, En. fold roomId s e n lookup.
      destruct (Room.findById (rooms d) roomId) as [room|] eqn:Hroom.
      * destruct (Room.isActive room) eqn:Hact; simpl.
        -- rewrite Z.gtb_ltb.
           destruct (Z.ltb_spec (Room.capacity room) n); simpl.
           ++ split.
              ** intros [H0 | []]. discriminate H0.
              ** intros (v' & room' & _ & E & _ & Hle).
                 injection E as <-. lia.
           ++ split.
              ** intros _. exists v, room. auto.
              ** intros _.
                 destruct (negb (Reservation.checkAvailability _ _ _ _ _));
                   [simpl; auto|].
                 destruct (negb (Qle_bool _ _)); [simpl; auto|].
                 destruct (negb (Qle_bool _ _)); simpl; auto.
        -- split.
           ++ intros [H0 | []]. discriminate H0.
           ++ intros (v' & room' & _ & E & Hact' & _).
              injection E as <-. congruence.
      * simpl. split.
        -- intros [H0 | []]. discriminate H0.
        -- intros (v' & room' & _ & E & _). discriminate E.
Qed.

Lemma createReservation_first_violated_rule_witness :
  response (createReservation (8 * hour) bob ten_minutes_body
              (mkDb [meeting_room] [ten_to_eleven] 1%nat))
  = slot_unavailable.
Proof.
  assert (Hwf : well_formed (reservations (mkDb [meeting_room] [ten_to_eleven] 1%nat))).
  { repeat constructor. }
  destruct (createReservation_first_violated_rule (8 * hour) bob ten_minutes_body
              (mkDb [meeting_room] [ten_to_eleven] 1%nat) Hwf)
    as (_ & _ & _ & H & _).
  destruct (H ten_minutes_body eq_refl) as (_ & _ & Hroom).
  destruct (Hroom meeting_room eq_refl eq_refl) as [_ Hcap].
  assert (Hle : validations.attendees ten_minutes_body <= Room.capacity meeting_room).
  { vm_compute. discriminate. }
  destruct (Hcap Hle) as [Htaken _].
  apply Htaken. exists ten_to_eleven.
  repeat split. left. reflexivity.
Defined.

(** Bob's ten minutes break the 30-minute minimum and overlap alice's
    booking: the answer is 409 "not available", not the duration error.
    The same request on the empty store is answered with the duration
    error after the conflict lookup has run. *)
Lemma conflict_lookup_precedes_duration_rule :
  let d0 := empty_store [meeting_room] in
  let d := db (createReservation 0 alice standup_body d0) in
  let r := createReservation (8 * hour) bob ten_minutes_body d in
  let r0 := createReservation (8 * hour) bob ten_minutes_body d0 in
  reservations d = [ten_to_eleven]
  /\ validations.endTime ten_minutes_body - validations.startTime ten_minutes_body
     < minDuration
  /\ slot_taken (reservations d) 7%nat (10 * hour) (10 * hour + 10 * minute)
  /\ response r = slot_unavailable
  /\ response r <> duration_too_short
  /\ response r <> duration_too_long
  /\ response r0 = duration_too_short
  /\ In (Reservation_checkAvailability 7%nat (10 * hour) (10 * hour + 10 * minute))
        (calls r0)
  /\ ~ duration_rule_precedes_conflict_lookup.
Proof.
  assert (Htaken : slot_taken [ten_to_eleven] 7%nat (10 * hour) (10 * hour + 10 * minute)).
  { exists ten_to_eleven. repeat split. left. reflexivity. }
  repeat split; try discriminate; try exact Htaken.
  - right. left. reflexivity.
  - intros H.
    destruct (H (8 * hour) bob ten_minutes_body
                (mkDb [meeting_room] [ten_to_eleven] 1%nat)
                ten_minutes_body meeting_room) as [E | E];
      try reflexivity; try exact Htaken; try discriminate E.
    + repeat constructor.
    + vm_compute. discriminate.
    + left. reflexivity.
Qed.

(** C7. For a request that passes the schema, names an active room, fits
    its capacity and meets no conflict: a span of exactly 30 minutes is
    granted (201, the reservation stored), 29 minutes is refused as too
    short, exactly 8 hours is granted, 8 hours and 1 minute is refused as
    too long; a refusal stores nothing, and the two refusals carry
    different messages. *)
Theorem createReservation_duration_bounds_inclusive
    (now : Date) (u : User) (body v : validations.createReservationBody)
    (d : Db) (room : Room.doc) :
  well_formed (reservations d) ->
  validations.createReservationValidation now body = inr v ->
  Room.findById (rooms d) (validations.room body) = Some room ->
  Room.isActive room = true ->
  validations.attendees body <= Room.capacity room ->
  ~ slot_taken (reservations d) (validations.room body)
      (validations.startTime body) (validations.endTime body) ->
  let r := createReservation now u body d in
  let span := validations.endTime body - validations.startTime body in
  (span = 30 * minute ->
   statusCode (response r) = 201 /\ In (granted now u v d) (reservations (db r)))
  /\ (span = 29 * minute -> response r = duration_too_short /\ db r = d)
  /\ (span = 8 * hour ->
      statusCode (response r) = 201 /\ In (granted now u v d) (reservations (db r)))
  /\ (span = 8 * hour + 1 * minute -> response r = duration_too_long /\ db r = d)
  /\ (statusCode (response r) = 201 <-> 30 * minute <= span <= 8 * hour)
  /\ message duration_too_short <> message duration_too_long.
Proof.
  intros Hwf Hv Hroom Hact Hcap Hfree r span.
  destruct (validation_accepts now body v Hv)
    as (Hnow & Hse & Hn & Er & Es & Ee & En).
  assert (Hr : r = createReservation now u body d) by reflexivity.
  rewrite <- Er in Hroom.
  rewrite (createReservation_validated now u body d v room Hv Hroom Hact) in Hr.
  rewrite Er, Es, Ee, En in Hr. simpl in Hr. fold span in Hr.
  apply Z.ltb_ge in Hcap. rewrite Hcap in Hr.
  destruct (Reservation.checkAvailability (reservations d) (validations.room body)
              (validations.startTime body) (validations.endTime body) None) eqn:Hav.
  2:{ exfalso. apply Hfree.
      apply (checkAvailability_slot_taken _ _ _ _ Hwf Hse). exact Hav. }
  simpl in Hr. unfold minDuration, maxDuration, minute, hour in *.
  destruct (Z.ltb_spec span (30 * 60 * 1000));
    [|destruct (Z.ltb_spec (8 * 60 * 60 * 1000) span)];
    rewrite Hr; simpl; repeat split; intros; try lia; try discriminate;
    try (apply in_or_app; right; left; reflexivity).
Qed.

Lemma createReservation_duration_bounds_inclusive_witness :
  statusCode (response (createReservation (8 * hour) bob half_hour_body
                          (mkDb [meeting_room] [ten_to_eleven] 1%nat))) = 201.
Proof.
  assert (Hfree : ~ slot_taken [ten_to_eleven] 7%nat (14 * hour) (14 * hour + 30 * minute)).
  { intros (x & [<- | []] & _ & _ & _ & H). vm_compute in H. discriminate H. }
  assert (Hwf : well_formed [ten_to_eleven]) by (repeat constructor).
  assert (Hle : validations.attendees half_hour_body <= Room.capacity meeting_room).
  { vm_compute. discriminate. }
  destruct (createReservation_duration_bounds_inclusive (8 * hour) bob
              half_hour_body half_hour_body
              (mkDb [meeting_room] [ten_to_eleven] 1%nat) meeting_room
              Hwf eq_refl eq_refl eq_refl Hle Hfree) as [H30 _].
  apply H30. reflexivity.
Defined.

(** C8. For a request that passes the schema and names an active room:
    with as many attendees as the room's capacity the capacity rule passes
    (the answer is not the capacity refusal and the conflict lookup is
    reached; the request is granted when the slot is free and the duration
    within bounds); with more attendees than the capacity the answer is the
    capacity refusal, status 400 with its own message, and nothing is
    stored; and the capacity refusal differs from the slot-conflict refusal
    (409) in status and in message. *)
Theorem createReservation_capacity_boundary
    (now : Date) (u : User) (body v : validations.createReservationBody)
    (d : Db) (room : Room.doc) :
  validations.createReservationValidation now body = inr v ->
  Room.findById (rooms d) (validations.room body) = Some room ->
  Room.isActive room = true ->
  let r := createReservation now u body d in
  let s := validations.startTime body in
  let e := validations.endTime body in
  (validations.attendees body = Room.capacity room ->
   response r <> capacity_exceeded room
   /\ In (Reservation_checkAvailability (validations.room body) s e) (calls r)
   /\ (Reservation.checkAvailability (reservations d) (validations.room body) s e None
       = true ->
       minDuration <= e - s <= maxDuration ->
       statusCode (response r) = 201
       /\ In (granted now u v d) (reservations (db r))))
  /\ (Room.capacity room < validations.attendees body ->
      response r = capacity_exceeded room
      /\ kind_of (response r) = BadInput
      /\ db r = d)
  /\ statusCode (capacity_exceeded room) <> statusCode slot_unavailable
  /\ message (capacity_exceeded room) <> message slot_unavailable
  /\ kind_of (capacity_exceeded room) <> kind_of slot_unavailable.
Proof.
  intros Hv Hroom Hact r s e.
  destruct (validation_accepts now body v Hv)
    as (Hnow & Hse & Hn & Er & Es & Ee & En).
  assert (Hr : r = createReservation now u body d) by reflexivity.
  rewrite <- Er in Hroom.
  rewrite (createReservation_validated now u body d v room Hv Hroom Hact) in Hr.
  rewrite Er, Es, Ee, En in Hr. simpl in Hr. fold s e in Hr.
  split; [|split; [|repeat split; discriminate]].
  - intros Heq.
    assert (Hcap : (Room.capacity room <? validations.attendees body) = false)
      by (apply Z.ltb_ge; lia).
    rewrite Hcap in Hr.
    split; [|split].
    + rewrite Hr.
      destruct (negb (Reservation.checkAvailability _ _ _ _ _)); [discriminate|].
      destruct (e - s <? minDuration); [discriminate|].
      destruct (maxDuration <? e - s); discriminate.
    + rewrite Hr.
      destruct (negb (Reservation.checkAvailability _ _ _ _ _)); [simpl; auto|].
      destruct (e - s <? minDuration); [simpl; auto|].
      destruct (maxDuration <? e - s); simpl; auto.
    + intros Hav [Hmin Hmax]. rewrite Hav in Hr. simpl in Hr.
      apply Z.ltb_ge in Hmin. apply Z.ltb_ge in Hmax.
      rewrite Hmin, Hmax in Hr. rewrite Hr. simpl. split; [reflexivity|].
      apply in_or_app. right. left. reflexivity.
  - intros Hgt. apply Z.ltb_lt in Hgt. rewrite Hgt in Hr. rewrite Hr.
    repeat split.
Qed.

Lemma createReservation_capacity_boundary_witness :
  statusCode (response (createReservation (8 * hour) bob full_house_body
                          (mkDb [meeting_room] [ten_to_eleven] 1%nat))) = 201.
Proof.
  apply (proj1 (createReservation_capacity_boundary (8 * hour) bob full_house_body
                  full_house_body (mkDb [meeting_room] [ten_to_eleven] 1%nat)
                  meeting_room eq_refl eq_refl eq_refl)).
  - reflexivity.
  - reflexivity.
  - vm_compute. split; discriminate.
Defined.

(** ** The no-overlap invariant *)

Lemma clash_holds_no_more_l x' x z :
  holds_no_more x' x -> clash x' z = true -> clash x z = true.
Proof.
  intros (Hr & Hs & He & Ha). unfold clash. rewrite Hr, Hs, He.
  destruct (Reservation.isActive x'); simpl; [|discriminate].
  rewrite (Ha eq_refl). auto.
Qed.

Lemma clash_holds_no_more_r x' x z :
  holds_no_more x' x -> clash z x' = true -> clash z x = true.
Proof.
  intros (Hr & Hs & He & Ha). unfold clash. rewrite Hr, Hs, He.
  destruct (Reservation.isActive z); simpl; [|discriminate].
  destruct (Reservation.isActive x'); simpl; [|discriminate].
  rewrite (Ha eq_refl). auto.
Qed.

Lemma forallb_replace (P : Reservation.doc -> bool) coll x x' :
  Reservation.findById coll (Reservation._id x') = Some x ->
  (P x = true -> P x' = true) ->
  forallb P coll = true ->
  forallb P (Reservation.replace x' coll) = true.
Proof.
  unfold Reservation.findById.
  induction coll as [|y rest IH]; simpl; [discriminate|].
  intros Hf Hp Hall. apply andb_true_iff in Hall as [Hy Hrest].
  destruct (Nat.eqb (Reservation._id y) (Reservation._id x')); simpl.
  - injection Hf as ->. rewrite (Hp Hy). exact Hrest.
  - rewrite Hy. simpl. apply IH; assumption.
Qed.

Lemma Forall_replace (P : Reservation.doc -> Prop) coll x' :
  P x' -> Forall P coll -> Forall P (Reservation.replace x' coll).
Proof.
  intros Hx'. induction 1 as [|y rest Hy Hrest IH]; simpl; [constructor|].
  destruct (Nat.eqb (Reservation._id y) (Reservation._id x'));
    constructor; assumption.
Qed.

Lemma no_double_booking_replace coll x x' :
  Reservation.findById coll (Reservation._id x') = Some x ->
  holds_no_more x' x ->
  no_double_booking coll = true ->
  no_double_booking (Reservation.replace x' coll) = true.
Proof.
  intros Hf Hw. revert Hf. unfold Reservation.findById.
  induction coll as [|y rest IH]; simpl; [discriminate|].
  intros Hf Hndb. apply andb_true_iff in Hndb as [Hy Hrest].
  destruct (Nat.eqb (Reservation._id y) (Reservation._id x')) eqn:E; simpl.
  - injection Hf as ->. rewrite Hrest, andb_true_r.
    apply forallb_forall. intros z Hz.
    rewrite forallb_forall in Hy. specialize (Hy z Hz).
    destruct (clash x' z) eqn:Hc; [|reflexivity].
    rewrite (clash_holds_no_more_l x' x z Hw Hc) in Hy. discriminate.
  - rewrite (IH Hf Hrest), andb_true_r.
    apply (forallb_replace _ rest x x' Hf); [|exact Hy].
    intros Hyx. destruct (clash y x') eqn:Hc; [|reflexivity].
    rewrite (clash_holds_no_more_r x' x y Hw Hc) in Hyx. discriminate.
Qed.

Lemma booking_invariant_replace d id x x' :
  Reservation.findById (reservations d) id = Some x ->
  Reservation._id x' = id ->
  holds_no_more x' x ->
  booking_invariant d ->
  booking_invariant (set_reservations (Reservation.replace x' (reservations d)) d).
Proof.
  intros Hf Hid Hw [Hwf Hndb]. subst id. split; simpl.
  - apply Forall_replace; [|exact Hwf].
    destruct (findById_In _ _ _ Hf) as [Hin _].
    pose proof (proj1 (Forall_forall _ _) Hwf x Hin) as Hp.
    destruct Hw as (_ & Hs & He & _). unfold proper_interval in *. lia.
  - apply (no_double_booking_replace _ x x' Hf Hw Hndb).
Qed.

Lemma no_double_booking_app coll g :
  no_double_booking (coll ++ [g])
  = no_double_booking coll && forallb (fun x => negb (clash x g)) coll.
Proof.
  induction coll as [|y rest IH]; simpl; [reflexivity|].
  rewrite forallb_app, IH. simpl.
  destruct (forallb (fun z => negb (clash y z)) rest),
    (negb (clash y g)), (no_double_booking rest); reflexivity.
Qed.

Lemma createReservation_preserves now u body d :
  booking_invariant d -> booking_invariant (db (createReservation now u body d)).
Proof.
  intros [Hwf Hndb].
  destruct (validations.createReservationValidation now body) as [msg|v] eqn:Hv.
  { unfold createReservation. rewrite Hv. split; assumption. }
  destruct (validation_accepts now body v Hv)
    as (Hnow & Hse & Hn & Er & Es & Ee & En).
  destruct (Room.findById (rooms d) (validations.room v)) as [room|] eqn:Hroom.
  2:{ unfold createReservation. rewrite Hv. simpl. rewrite Hroom. split; assumption. }
  destruct (Room.isActive room) eqn:Hact.
  2:{ unfold createReservation. rewrite Hv. simpl. rewrite Hroom, Hact.
      split; assumption. }
  rewrite (createReservation_validated now u body d v room Hv Hroom Hact). simpl.
  destruct (Room.capacity room <? validations.attendees v); [split; assumption|].
  destruct (Reservation.checkAvailability (reservations d) (validations.room v)
              (validations.startTime v) (validations.endTime v) None) eqn:Hav;
    [|split; assumption].
  simpl.
  destruct (_ <? minDuration); [split; assumption|].
  destruct (maxDuration <? _); [split; assumption|].
  assert (Hse' : validations.startTime v < validations.endTime v) by lia.
  split; simpl.
  - apply Forall_app. split; [exact Hwf|]. repeat constructor. exact Hse'.
  - rewrite no_double_booking_app, Hndb. simpl.
    apply forallb_forall. intros x Hx.
    rewrite checkAvailability_true_iff in Hav. specialize (Hav x Hx).
    assert (Hp : proper_interval x) by (eapply Forall_forall; eauto).
    rewrite (conflictConditions_clash _ _ _ x Hp Hse') in Hav.
    unfold clash. simpl.
    change (Reservation.isActive (granted now u v d)) with true.
    destruct (Nat.eqb (Reservation.room x) (validations.room v)),
      (Reservation.isActive x),
      (overlapb (Reservation.startTime x) (Reservation.endTime x)
         (validations.startTime v) (validations.endTime v));
      simpl in *; try reflexivity; discriminate Hav.
Qed.

Lemma cancelled_holds_no_more now x :
  holds_no_more (Reservation.set_updatedAt now (Reservation.set_status cancelled x)) x.
Proof. repeat split. discriminate. Qed.

Lemma cancelReservation_preserves now u id d :
  booking_invariant d -> booking_invariant (db (cancelReservation now u id d)).
Proof.
  intros Hinv. unfold cancelReservation.
  destruct (Reservation.findById (reservations d) id) as [x|] eqn:Hf; [|exact Hinv].
  destruct (_ && negb (Nat.eqb _ _)); [exact Hinv|].
  destruct (_ && negb (Reservation.canBeCancelled _ _)); [exact Hinv|].
  simpl. apply (booking_invariant_replace d id x); auto.
  - apply (findById_In _ _ _ Hf).
  - apply cancelled_holds_no_more.
Qed.

Lemma adminCancelReservation_preserves now id d :
  booking_invariant d -> booking_invariant (db (adminCancelReservation now id d)).
Proof.
  intros Hinv. unfold adminCancelReservation.
  destruct (Reservation.findById (reservations d) id) as [x|] eqn:Hf; [|exact Hinv].
  simpl. apply (booking_invariant_replace d id x); auto.
  - apply (findById_In _ _ _ Hf).
  - apply cancelled_holds_no_more.
Qed.

Lemma updateReservationStatus_preserves now id status d :
  (forall s x,
     Status_of_string status = Some s ->
     Reservation.findById (reservations d) id = Some x ->
     Reservation.status_in_pending_confirmed s = true ->
     Reservation.isActive x = true) ->
  booking_invariant d ->
  booking_invariant (db (updateReservationStatus now id status d)).
Proof.
  intros Hsafe Hinv. unfold updateReservationStatus, Reservation.findByIdAndUpdate.
  destruct (Status_of_string status) as [s|]; [|exact Hinv].
  destruct (Reservation.findById (reservations d) id) as [x|] eqn:Hf; [|exact Hinv].
  simpl. apply (booking_invariant_replace d id x); auto.
  - apply (findById_In _ _ _ Hf).
  - repeat split. unfold Reservation.isActive. simpl.
    intros Hs. exact (Hsafe s x eq_refl eq_refl Hs).
Qed.

Lemma serve_preserves a d :
  reactivates a d = false -> booking_invariant d -> booking_invariant (serve a d).
Proof.
  destruct a as [now u req]. unfold serve, reactivates. simpl.
  destruct req as [body | id | id status | id]; simpl; intros Hsafe Hinv.
  - apply createReservation_preserves, Hinv.
  - apply cancelReservation_preserves, Hinv.
  - unfold authorize. simpl. rewrite orb_false_r.
    destruct (Role_eqb (role u) admin_role); simpl in *; [|exact Hinv].
    apply updateReservationStatus_preserves; [|exact Hinv].
    intros s x Hs Hx Hact. rewrite Hs, Hx, Hact in Hsafe. simpl in Hsafe.
    apply negb_false_iff in Hsafe. exact Hsafe.
  - unfold authorize. simpl. rewrite orb_false_r.
    destruct (Role_eqb (role u) admin_role); simpl; [|exact Hinv].
    apply adminCancelReservation_preserves, Hinv.
Qed.

Lemma run_preserves l : forall d,
  never_reactivates l d = true -> booking_invariant d -> booking_invariant (run l d).
Proof.
  induction l as [|a rest IH]; simpl; intros d Hsafe Hinv; [exact Hinv|].
  apply andb_true_iff in Hsafe as [Ha Hrest]. apply negb_true_iff in Ha.
  apply IH; [exact Hrest|]. apply serve_preserves; assumption.
Qed.

(** Creation, cancellation by the owner or an administrator, and status
    changes that do not put a cancelled or completed reservation back to
    'pending' or 'confirmed' keep the invariant: after any such sequence of
    requests on an empty store, served one at a time, no two active
    reservations of a room overlap. *)
Theorem no_double_booking_without_reactivation
    (rs : list Room.doc) (l : list Arrival) :
  never_reactivates l (empty_store rs) = true ->
  no_double_booking (reservations (run l (empty_store rs))) = true.
Proof.
  intros Hsafe. apply (run_preserves l (empty_store rs) Hsafe).
  split; [constructor | reflexivity].
Qed.

Lemma no_double_booking_without_reactivation_witness :
  no_double_booking
    (reservations (run (firstn 3 reactivation_requests) (empty_store [meeting_room])))
  = true.
Proof.
  apply (no_double_booking_without_reactivation [meeting_room]
           (firstn 3 reactivation_requests)).
  vm_compute. reflexivity.
Defined.

(** C1, on the code. Alice books the meeting room 10:00 to 11:00 and
    cancels, bob books the freed slot, and the administrator sets alice's
    reservation back to 'confirmed' through [updateReservationStatus],
    which runs no availability check: the store then holds two confirmed
    reservations of the same room over the same hour. *)
Theorem updateReservationStatus_reactivation_double_books :
  let d := run reactivation_requests (empty_store [meeting_room]) in
  map slot_of (reservations d)
  = [ (0%nat, 7%nat, 10 * hour, 11 * hour, confirmed);
      (1%nat, 7%nat, 10 * hour, 11 * hour, confirmed) ]
  /\ no_double_booking (reservations d) = false
  /\ never_reactivates reactivation_requests (empty_store [meeting_room]) = false
  /\ ~ no_overlap_after_any_requests.
Proof.
  repeat split.
  intros H. specialize (H [meeting_room] reactivation_requests).
  vm_compute in H. discriminate H.
Qed.

(** * Properties of the rest of the code *)

(** ** The shape of a request's effect on the store *)

Lemma serve_cases (a : Arrival) (d : Db) :
  serve a d = d
  \/ (exists x s,
        Reservation.findById (reservations d) (Reservation._id x) = Some x
        /\ serve a d
           = set_reservations
               (Reservation.replace
                  (Reservation.set_updatedAt (at_time a) (Reservation.set_status s x))
                  (reservations d)) d)
  \/ (exists body v room,
        request a = POST_reservation body
        /\ validations.createReservationValidation (at_time a) body = inr v
        /\ Room.findById (rooms d) (validations.room v) = Some room
        /\ Room.isActive room = true
        /\ validations.attendees v <= Room.capacity room
        /\ Reservation.checkAvailability (reservations d) (validations.room v)
             (validations.startTime v) (validations.endTime v) None = true
        /\ minDuration <= validations.endTime v - validations.startTime v <= maxDuration
        /\ serve a d
           = mkDb (rooms d)
               (reservations d ++ [granted (at_time a) (by_user a) v d])%list
               (S (nextId d))).
Proof.
  destruct a as [now u req]. unfold serve. simpl.
  assert (Hwrite : forall id x s,
    Reservation.findById (reservations d) id = Some x ->
    exists x0 s0,
      Reservation.findById (reservations d) (Reservation._id x0) = Some x0
      /\ set_reservations
           (Reservation.replace
              (Reservation.set_updatedAt now (Reservation.set_status s x))
              (reservations d)) d
         = set_reservations
             (Reservation.replace
                (Reservation.set_updatedAt now (Reservation.set_status s0 x0))
                (reservations d)) d).
  { intros id x s Hf. exists x, s. destruct (findById_In _ _ _ Hf) as [_ Hid].
    rewrite Hid. auto. }
  destruct req as [body | id | id status | id]; simpl.
  - destruct (validations.createReservationValidation now body) as [msg|v] eqn:Hv.
    { left. unfold createReservation. rewrite Hv. reflexivity. }
    destruct (Room.findById (rooms d) (validations.room v)) as [room|] eqn:Hroom.
    2:{ left. unfold createReservation. rewrite Hv. simpl. rewrite Hroom. reflexivity. }
    destruct (Room.isActive room) eqn:Hact.
    2:{ left. unfold createReservation. rewrite Hv. simpl. rewrite Hroom, Hact.
        reflexivity. }
    rewrite (createReservation_validated now u body d v room Hv Hroom Hact). simpl.
    destruct (Z.ltb_spec (Room.capacity room) (validations.attendees v)); [left; reflexivity|].
    destruct (Reservation.checkAvailability _ _ _ _ _) eqn:Hav; [|left; reflexivity].
    simpl.
    destruct (Z.ltb_spec (validations.endTime v - validations.startTime v) minDuration);
      [left; reflexivity|].
    destruct (Z.ltb_spec maxDuration (validations.endTime v - validations.startTime v));
      [left; reflexivity|].
    right. right. exists body, v, room. simpl. repeat split; auto.
  - unfold cancelReservation.
    destruct (Reservation.findById (reservations d) id) as [x|] eqn:Hf; [|left; reflexivity].
    destruct (_ && negb (Nat.eqb _ _)); [left; reflexivity|].
    destruct (_ && negb (Reservation.canBeCancelled _ _)); [left; reflexivity|].
    right. left. simpl. exact (Hwrite id x cancelled Hf).
  - unfold authorize. destruct (negb _); [left; reflexivity|].
    unfold updateReservationStatus, Reservation.findByIdAndUpdate.
    destruct (Status_of_string status) as [s|]; [|left; reflexivity].
    destruct (Reservation.findById (reservations d) id) as [x|] eqn:Hf; [|left; reflexivity].
    right. left. simpl. exact (Hwrite id x s Hf).
  - unfold authorize. destruct (negb _); [left; reflexivity|].
    unfold adminCancelReservation.
    destruct (Reservation.findById (reservations d) id) as [x|] eqn:Hf; [|left; reflexivity].
    right. left. simpl. exact (Hwrite id x cancelled Hf).
Qed.

Lemma map_replace {A} (f : Reservation.doc -> A) coll x x' :
  Reservation.findById coll (Reservation._id x') = Some x ->
  f x' = f x ->
  map f (Reservation.replace x' coll) = map f coll.
Proof.
  unfold Reservation.findById. intros Hf Hfx.
  induction coll as [|y rest IH]; simpl in *; [reflexivity|].
  destruct (Nat.eqb (Reservation._id y) (Reservation._id x')); simpl.
  - injection Hf as ->. rewrite Hfx. reflexivity.
  - rewrite (IH Hf). reflexivity.
Qed.

(** ** What every reachable store satisfies *)

Lemma durationHours_bounds (x : Reservation.doc) :
  minDuration <= Reservation.endTime x - Reservation.startTime x <= maxDuration ->
  (1 # 2 <= durationHours x <= inject_Z 8)%Q.
Proof.
  unfold durationHours, Qle, Qdiv, Qmult, Qinv, inject_Z, minDuration, maxDuration.
  simpl. lia.
Qed.

Lemma granted_lawful now u body v room d :
  validations.createReservationValidation now body = inr v ->
  Room.findById (rooms d) (validations.room v) = Some room ->
  Room.isActive room = true ->
  validations.attendees v <= Room.capacity room ->
  minDuration <= validations.endTime v - validations.startTime v <= maxDuration ->
  created_lawfully (rooms d) (granted now u v d).
Proof.
  intros Hv Hroom Hact Hcap Hdur.
  destruct (validation_accepts now body v Hv)
    as (Hnow & Hse & Hn & Er & Es & Ee & En).
  unfold created_lawfully. simpl.
  split; [lia|]. split; [exact Hdur|].
  split; [apply durationHours_bounds; exact Hdur|].
  split; [lia|].
  exists room. repeat split; auto. unfold canAccommodate. apply Z.leb_le. exact Hcap.
Qed.

Lemma length_replace x' coll :
  List.length (Reservation.replace x' coll) = List.length coll.
Proof.
  induction coll as [|y rest IH]; simpl; [reflexivity|].
  destruct (Nat.eqb _ _); simpl; [reflexivity | rewrite IH; reflexivity].
Qed.

Lemma serve_store_ok rs a d : store_ok rs d -> store_ok rs (serve a d).
Proof.
  intros (Hrs & [Hnd Hlt] & Hnext & Hlaw).
  destruct (serve_cases a d)
    as [-> | [(x & s & Hf & ->) | (body & v & room & _ & Hv & Hroom & Hact & Hcap & _ & Hdur & ->)]].
  - repeat split; assumption.
  - destruct (findById_In _ _ _ Hf) as [Hin _].
    unfold store_ok, ids_fresh. simpl.
    rewrite (map_replace Reservation._id (reservations d) x
               (Reservation.set_updatedAt (at_time a) (Reservation.set_status s x))
               Hf eq_refl), length_replace.
    repeat split; auto.
    + apply Forall_replace; [|exact Hlt].
      exact (proj1 (Forall_forall _ _) Hlt x Hin).
    + apply Forall_replace; [|exact Hlaw].
      exact (proj1 (Forall_forall _ _) Hlaw x Hin).
  - unfold store_ok, ids_fresh. simpl.
    rewrite map_app, length_app. simpl.
    repeat split; auto.
    + apply NoDup_app; [exact Hnd | repeat constructor; intros [] |].
      intros i Hi [<- | []].
      apply in_map_iff in Hi as (y & Hy & Hin).
      pose proof (proj1 (Forall_forall _ _) Hlt y Hin) as Hlty. simpl in Hlty. lia.
    + apply Forall_app. split.
      * eapply Forall_impl; [|exact Hlt]. simpl. intros y Hy. lia.
      * repeat constructor.
    + lia.
    + apply Forall_app. split; [exact Hlaw|]. constructor; [|constructor].
      rewrite <- Hrs.
      exact (granted_lawful _ _ body v room d Hv Hroom Hact Hcap Hdur).
Qed.

Lemma run_store_ok rs l : forall d, store_ok rs d -> store_ok rs (run l d).
Proof.
  induction l as [|a rest IH]; simpl; intros d Hd; [exact Hd|].
  apply IH, serve_store_ok, Hd.
Qed.

(** X3. After any sequence of requests on the four routes, served one
    at a time, started from the empty store over a room catalogue that
    does not change meanwhile: every stored reservation has its start
    before its end, lasts between 30 minutes and 8 hours (half an hour to
    8 as [durationHours]), has at least one attendee, and names an active
    room of the catalogue that can accommodate its attendees. *)
Theorem run_store_invariants (rs : list Room.doc) (l : list Arrival) :
  let d := run l (empty_store rs) in
  rooms d = rs
  /\ Forall (created_lawfully rs) (reservations d).
Proof.
  assert (H0 : store_ok rs (empty_store rs)).
  { repeat split; simpl; constructor. }
  destruct (run_store_ok rs l _ H0) as (H1 & _ & _ & H5).
  split; assumption.
Qed.

(** ** Nothing is deleted, nothing booked is rewritten *)

Lemma serve_bookings_append_only a d :
  exists tail,
    map booking_of (reservations (serve a d))
    = (map booking_of (reservations d) ++ tail)%list
    /\ (List.length tail <= 1)%nat.
Proof.
  destruct (serve_cases a d)
    as [-> | [(x & s & Hf & ->) | (body & v & room & _ & _ & _ & _ & _ & _ & _ & ->)]].
  - exists []. rewrite app_nil_r. auto.
  - exists []. rewrite app_nil_r. simpl. split; [|auto].
    apply (map_replace booking_of (reservations d) x
             (Reservation.set_updatedAt (at_time a) (Reservation.set_status s x))
             Hf eq_refl).
  - eexists. simpl. rewrite map_app. split; [reflexivity|]. simpl. auto.
Qed.

(** X4. The controllers never delete a reservation and never rewrite what
    was booked: after any sequence of requests on any store, the list of
    (id, user, room, start, end, purpose, attendees, special requirements,
    creation time) of the stored reservations is the list before, in the
    same order, followed by at most one new entry per request. Only
    [status] and [updatedAt] of an existing reservation can change. *)
Theorem run_bookings_append_only (l : list Arrival) (d : Db) :
  exists tail,
    map booking_of (reservations (run l d))
    = (map booking_of (reservations d) ++ tail)%list
    /\ (List.length tail <= List.length l)%nat.
Proof.
  revert d. induction l as [|a rest IH]; simpl; intros d.
  - exists []. rewrite app_nil_r. auto.
  - destruct (IH (serve a d)) as (t2 & E2 & L2).
    destruct (serve_bookings_append_only a d) as (t1 & E1 & L1).
    exists (t1 ++ t2)%list. rewrite E2, E1, app_assoc, length_app.
    split; [reflexivity | lia].
Qed.

(** ** What a caller who is not an administrator can change *)

Lemma findById_app coll g id x :
  Reservation.findById coll id = Some x ->
  Reservation.findById (coll ++ [g]) id = Some x.
Proof.
  unfold Reservation.findById.
  induction coll as [|y rest IH]; simpl; [discriminate|].
  destruct (Nat.eqb (Reservation._id y) id); auto.
Qed.

Lemma findById_replace_other coll x' id :
  Reservation._id x' <> id ->
  Reservation.findById (Reservation.replace x' coll) id
  = Reservation.findById coll id.
Proof.
  unfold Reservation.findById. intros Hne.
  induction coll as [|y rest IH]; simpl; [reflexivity|].
  destruct (Nat.eqb (Reservation._id y) (Reservation._id x')) eqn:E; simpl.
  - apply Nat.eqb_eq in E.
    destruct (Nat.eqb_spec (Reservation._id x') id); [contradiction|].
    destruct (Nat.eqb_spec (Reservation._id y) id); [congruence|reflexivity].
  - destruct (Nat.eqb (Reservation._id y) id); [reflexivity|exact IH].
Qed.

Lemma filter_replace (P : Reservation.doc -> bool) coll x x' :
  Reservation.findById coll (Reservation._id x') = Some x ->
  P x = false -> P x' = false ->
  filter P (Reservation.replace x' coll) = filter P coll.
Proof.
  unfold Reservation.findById. intros Hf Hx Hx'.
  induction coll as [|y rest IH]; simpl in *; [reflexivity|].
  destruct (Nat.eqb (Reservation._id y) (Reservation._id x')); simpl.
  - injection Hf as ->. rewrite Hx, Hx'. reflexivity.
  - rewrite (IH Hf). reflexivity.
Qed.

(** X5. A request of a caller who is not an administrator, on any route,
    leaves the reservations of every other user exactly as they were, and
    every reservation that was stored is still found under its id with the
    same booking and either the same status or, for a 'confirmed'
    reservation of the caller, the status 'cancelled'. *)
Theorem non_admin_changes_only_own (a : Arrival) (d : Db) :
  role (by_user a) = user_role ->
  let others x := negb (Nat.eqb (Reservation.user x) (user_id (by_user a))) in
  filter others (reservations (serve a d)) = filter others (reservations d)
  /\ forall id x,
       Reservation.findById (reservations d) id = Some x ->
       exists x',
         Reservation.findById (reservations (serve a d)) id = Some x'
         /\ booking_of x' = booking_of x
         /\ (Reservation.status x' = Reservation.status x
             \/ (Reservation.status x' = cancelled
                 /\ Reservation.status x = confirmed
                 /\ Reservation.user x = user_id (by_user a))).
Proof.
  destruct a as [now u req]. simpl. intros Hrole.
  assert (Hsame : forall dd, dd = d ->
    filter (fun x => negb (Nat.eqb (Reservation.user x) (user_id u))) (reservations dd)
    = filter (fun x => negb (Nat.eqb (Reservation.user x) (user_id u))) (reservations d)
    /\ forall id x,
         Reservation.findById (reservations d) id = Some x ->
         exists x',
           Reservation.findById (reservations dd) id = Some x'
           /\ booking_of x' = booking_of x
           /\ (Reservation.status x' = Reservation.status x
               \/ (Reservation.status x' = cancelled
                   /\ Reservation.status x = confirmed
                   /\ Reservation.user x = user_id u))).
  { intros dd ->. split; [reflexivity|]. intros id x Hf. exists x. auto. }
  unfold serve. simpl.
  destruct req as [body | id0 | id0 status | id0]; simpl.
  - destruct (validations.createReservationValidation now body) as [msg|v] eqn:Hv.
    { apply Hsame. unfold createReservation. rewrite Hv. reflexivity. }
    destruct (Room.findById (rooms d) (validations.room v)) as [room|] eqn:Hroom.
    2:{ apply Hsame. unfold createReservation. rewrite Hv. simpl. rewrite Hroom.
        reflexivity. }
    destruct (Room.isActive room) eqn:Hact.
    2:{ apply Hsame. unfold createReservation. rewrite Hv. simpl.
        rewrite Hroom, Hact. reflexivity. }
    rewrite (createReservation_validated now u body d v room Hv Hroom Hact). simpl.
    destruct (_ <? _); [apply Hsame; reflexivity|].
    destruct (negb _); [apply Hsame; reflexivity|].
    destruct (_ <? _); [apply Hsame; reflexivity|].
    destruct (_ <? _); [apply Hsame; reflexivity|].
    simpl. split.
    + rewrite filter_app. simpl. rewrite Nat.eqb_refl. simpl. apply app_nil_r.
    + intros id x Hf. exists x. split; [apply findById_app; exact Hf|]. auto.
  - unfold cancelReservation. rewrite Hrole. simpl.
    destruct (Reservation.findById (reservations d) id0) as [x0|] eqn:Hf0;
      [|apply Hsame; reflexivity].
    destruct (Nat.eqb_spec (Reservation.user x0) (user_id u)) as [Hown|];
      simpl; [|apply Hsame; reflexivity].
    destruct (Reservation.canBeCancelled now x0) eqn:Hc; simpl;
      [|apply Hsame; reflexivity].
    apply canBeCancelled_iff in Hc as [Hst _].
    destruct (findById_In _ _ _ Hf0) as [_ Hid0].
    rewrite <- Hid0 in Hf0.
    split.
    + apply (filter_replace _ (reservations d) x0
               (Reservation.set_updatedAt now (Reservation.set_status cancelled x0)) Hf0);
        simpl; rewrite Hown, Nat.eqb_refl; reflexivity.
    + intros id x Hf. destruct (Nat.eq_dec (Reservation._id x0) id) as [E|E].
      * rewrite <- E in Hf. rewrite Hf0 in Hf. injection Hf as <-.
        eexists. split.
        -- rewrite <- E.
           apply (findById_replace _ _ x0 _ Hf0). reflexivity.
        -- split; [reflexivity|]. right. simpl. auto.
      * exists x. split; [|auto].
        rewrite findById_replace_other; [exact Hf | exact E].
  - unfold authorize. rewrite Hrole. simpl. apply Hsame. reflexivity.
  - unfold authorize. rewrite Hrole. simpl. apply Hsame. reflexivity.
Qed.

Lemma non_admin_changes_only_own_witness :
  let d := mkDb [meeting_room] [ten_to_eleven; eleven_to_twelve] 2%nat in
  let a := mkArrival (7 * hour) alice (PATCH_cancel 1%nat) in
  filter (fun x => negb (Nat.eqb (Reservation.user x) (user_id alice)))
    (reservations (serve a d))
  = [eleven_to_twelve].
Proof.
  intros d a.
  exact (proj1 (non_admin_changes_only_own a d eq_refl)).
Defined.

(** ** Reading one reservation *)

(** X7. [getReservationById] answers 200 exactly when the reservation
    exists and the caller is an administrator or its owner (whose user
    document still exists), and a 200 answer carries that reservation; so
    a caller who is not an administrator never receives another user's
    reservation: for an existing owner the answer is 403 without data, and
    for an owner whose user document is gone the handler falls into its
    500 branch. A missing id is answered 404. *)
Theorem getReservationById_access
    (users : list ObjectId) (u : User) (id : ObjectId) (d : Db) :
  let r := getReservationById users u id d in
  (statusCode (response r) = 200 ->
   data (response r) = Reservation.findById (reservations d) id
   /\ exists x, data (response r) = Some x)
  /\ (statusCode (response r) <> 200 -> data (response r) = None)
  /\ (statusCode (response r) = 200
   <-> exists x, Reservation.findById (reservations d) id = Some x
                 /\ (role u = admin_role
                     \/ (In (Reservation.user x) users
                         /\ Reservation.user x = user_id u)))
  /\ (forall x, data (response r) = Some x ->
        Reservation.findById (reservations d) id = Some x
        /\ (role u = admin_role \/ Reservation.user x = user_id u))
  /\ (Reservation.findById (reservations d) id = None ->
      response r = json_error 404 "Reservation not found")
  /\ (forall x, Reservation.findById (reservations d) id = Some x ->
        role u = user_role ->
        Reservation.user x <> user_id u ->
        (In (Reservation.user x) users ->
         response r
         = json_error 403 "Access denied. You can only view your own reservations.")
        /\ (~ In (Reservation.user x) users ->
            response r = json_error 500 "Internal server error")).
Proof.
  intros r.
  split; [|split].
  { subst r. unfold getReservationById.
    destruct (Reservation.findById (reservations d) id) as [x|]; [|discriminate].
    destruct (Role_eqb (role u) admin_role);
      [intros _; split; [reflexivity | exists x; reflexivity]|].
    destruct (negb (existsb (Nat.eqb (Reservation.user x)) users)); [discriminate|].
    destruct (negb (Nat.eqb (Reservation.user x) (user_id u))); [discriminate|].
    intros _. split; [reflexivity | exists x; reflexivity]. }
  { subst r. unfold getReservationById.
    destruct (Reservation.findById (reservations d) id) as [x|]; [|reflexivity].
    destruct (Role_eqb (role u) admin_role); [intros H; exfalso; apply H; reflexivity|].
    destruct (negb (existsb (Nat.eqb (Reservation.user x)) users)); [reflexivity|].
    destruct (negb (Nat.eqb (Reservation.user x) (user_id u))); [reflexivity|].
    intros H. exfalso. apply H. reflexivity. }
  subst r. unfold getReservationById.
  destruct (Reservation.findById (reservations d) id) as [x|] eqn:Hf.
  2:{ simpl. split; [|split; [|split]].
      - split; [discriminate|]. intros (x & E & _). discriminate E.
      - intros x E. discriminate E.
      - reflexivity.
      - intros x E. discriminate E. }
  assert (Hin : existsb (Nat.eqb (Reservation.user x)) users = true
                <-> In (Reservation.user x) users).
  { rewrite existsb_exists. split.
    - intros (y & Hy & E). apply Nat.eqb_eq in E. subst y. exact Hy.
    - intros Hy. exists (Reservation.user x). split; [exact Hy|apply Nat.eqb_refl]. }
  destruct (role u) eqn:Hrole; simpl.
  - destruct (existsb (Nat.eqb (Reservation.user x)) users) eqn:Hex; simpl.
    + destruct (Nat.eqb_spec (Reservation.user x) (user_id u)) as [Hown|Hown]; simpl.
      * split; [|split; [|split]].
        -- split; [|reflexivity]. intros _. exists x. split; [reflexivity|].
           right. split; [apply Hin; reflexivity | exact Hown].
        -- intros y E. injection E as <-. auto.
        -- discriminate.
        -- intros y E _ Hne. injection E as <-. contradiction.
      * split; [|split; [|split]].
        -- split; [discriminate|].
           intros (y & E & [Ha | [_ Ho]]); [discriminate Ha|].
           injection E as <-. contradiction.
        -- intros y E. discriminate E.
        -- discriminate.
        -- intros y E _ _. injection E as <-. split; [reflexivity|].
           intros Hnin. exfalso. apply Hnin, Hin. reflexivity.
    + split; [|split; [|split]].
      * split; [discriminate|].
        intros (y & E & [Ha | [Hi _]]); [discriminate Ha|].
        injection E as <-. apply Hin in Hi. congruence.
      * intros y E. discriminate E.
      * discriminate.
      * intros y E _ _. injection E as <-. split; [|reflexivity].
        intros Hi. apply Hin in Hi. congruence.
  - split; [|split; [|split]].
    + split; [|reflexivity]. intros _. exists x. auto.
    + intros y E. injection E as <-. auto.
    + discriminate.
    + intros y E Hr. discriminate Hr.
Qed.

(** ** Started reservations *)

(** X11. A reservation that is in progress, or over, cannot be cancelled
    by a caller who is not an administrator: [canBeCancelled] is false, the
    request is refused (the 400 lead-time refusal for the owner, the 403
    ownership refusal for anyone else) and the store is unchanged. And
    [canBeCancelled] stays false at every later time. *)
Theorem started_reservation_cannot_be_cancelled
    (now : Date) (u : User) (id : ObjectId) (d : Db) (x : Reservation.doc) :
  Reservation.findById (reservations d) id = Some x ->
  proper_interval x ->
  isInProgress now x = true \/ Reservation.endTime x < now ->
  Reservation.canBeCancelled now x = false
  /\ (forall later, now <= later -> Reservation.canBeCancelled later x = false)
  /\ (role u = user_role ->
      let r := cancelReservation now u id d in
      db r = d
      /\ (statusCode (response r) = 400 \/ statusCode (response r) = 403)
      /\ (Reservation.user x = user_id u -> response r = lead_time_refusal)
      /\ (Reservation.user x <> user_id u ->
          response r
          = json_error 403 "Access denied. You can only cancel your own reservations.")).
Proof.
  intros Hf Hp Hstarted.
  assert (Hstart : Reservation.startTime x <= now).
  { destruct Hstarted as [Hin | Hover].
    - unfold isInProgress in Hin. apply andb_true_iff in Hin as [Hs _].
      apply Z.leb_le in Hs. exact Hs.
    - unfold proper_interval in Hp. lia. }
  assert (Hno : forall later, now <= later -> Reservation.canBeCancelled later x = false).
  { intros later Hl. destruct (Reservation.canBeCancelled later x) eqn:E; [|reflexivity].
    apply canBeCancelled_iff in E as [_ E]. lia. }
  split; [apply Hno; lia|]. split; [exact Hno|].
  intros Hrole r. subst r. unfold cancelReservation.
  rewrite Hf, Hrole, (Hno now (Z.le_refl now)). simpl.
  destruct (Nat.eqb_spec (Reservation.user x) (user_id u)); simpl.
  - split; [reflexivity|]. split; [left; reflexivity|].
    split; [reflexivity | intros Hne; contradiction].
  - split; [reflexivity|]. split; [right; reflexivity|].
    split; [intros Ho; contradiction | reflexivity].
Qed.

Lemma started_reservation_cannot_be_cancelled_witness :
  Reservation.canBeCancelled (10 * hour + 30 * minute) ten_to_eleven = false.
Proof.
  assert (Hp : proper_interval ten_to_eleven) by reflexivity.
  exact (proj1 (started_reservation_cannot_be_cancelled
                  (10 * hour + 30 * minute) alice 0%nat
                  (mkDb [meeting_room] [ten_to_eleven] 1%nat) ten_to_eleven
                  eq_refl Hp (or_introl eq_refl))).
Defined.

(** ** A granted reservation holds its slot *)

Lemma validation_later now later (b v : validations.createReservationBody) :
  validations.createReservationValidation now b = inr v ->
  later < validations.startTime b ->
  validations.createReservationValidation later b = inr v.
Proof.
  unfold validations.createReservationValidation. intros Hv Hl.
  destruct (Z.ltb_spec now (validations.startTime b)); simpl in Hv; [|discriminate].
  destruct (Z.ltb_spec later (validations.startTime b)); [|lia].
  exact Hv.
Qed.

Lemma createReservation_201 now u body d :
  statusCode (response (createReservation now u body d)) = 201 ->
  exists v room,
    validations.createReservationValidation now body = inr v
    /\ Room.findById (rooms d) (validations.room v) = Some room
    /\ Room.isActive room = true
    /\ validations.attendees v <= Room.capacity room
    /\ createReservation now u body d
       = mkResult
           (mkDb (rooms d) (reservations d ++ [granted now u v d])%list (S (nextId d)))
           (json_success 201 "Reservation created successfully" (granted now u v d))
           [Room_findById (validations.room v);
            Reservation_checkAvailability (validations.room v)
              (validations.startTime v) (validations.endTime v);
            Reservation_create (nextId d)].
Proof.
  destruct (validations.createReservationValidation now body) as [msg|v] eqn:Hv.
  { unfold createReservation. rewrite Hv. discriminate. }
  destruct (Room.findById (rooms d) (validations.room v)) as [room|] eqn:Hroom.
  2:{ unfold createReservation. rewrite Hv. simpl. rewrite Hroom. discriminate. }
  destruct (Room.isActive room) eqn:Hact.
  2:{ unfold createReservation. rewrite Hv. simpl. rewrite Hroom, Hact. discriminate. }
  rewrite (createReservation_validated now u body d v room Hv Hroom Hact). simpl.
  destruct (Z.ltb_spec (Room.capacity room) (validations.attendees v)); [discriminate|].
  destruct (negb _); [discriminate|].
  destruct (_ <? _); [discriminate|].
  destruct (_ <? _); [discriminate|].
  intros _. exists v, room. auto.
Qed.

Lemma findById_fresh coll g :
  Forall (fun x => (Reservation._id x < Reservation._id g)%nat) coll ->
  Reservation.findById (coll ++ [g]) (Reservation._id g) = Some g.
Proof.
  unfold Reservation.findById.
  induction 1 as [|y rest Hy Hrest IH]; simpl.
  - rewrite Nat.eqb_refl. reflexivity.
  - destruct (Nat.eqb_spec (Reservation._id y) (Reservation._id g)); [lia|exact IH].
Qed.

(** X9. When [createReservation] answers 201 on a store whose ids are
    below the next fresh id: the reservation it returns is found under
    that id, is 'confirmed', belongs to the caller and carries the
    requested room and interval; the slot is no longer available; and the
    same body, sent again by anyone while its start is still in the
    future, is refused with the 409 slot-conflict answer and stores
    nothing. *)
Theorem createReservation_granted_holds_slot
    (now : Date) (u : User) (body : validations.createReservationBody) (d : Db) :
  Forall (fun x => (Reservation._id x < nextId d)%nat) (reservations d) ->
  let r := createReservation now u body d in
  statusCode (response r) = 201 ->
  exists g,
    data (response r) = Some g
    /\ Reservation.findById (reservations (db r)) (nextId d) = Some g
    /\ Reservation.status g = confirmed
    /\ Reservation.user g = user_id u
    /\ Reservation.room g = validations.room body
    /\ Reservation.startTime g = validations.startTime body
    /\ Reservation.endTime g = validations.endTime body
    /\ Reservation.checkAvailability (reservations (db r)) (validations.room body)
         (validations.startTime body) (validations.endTime body) None = false
    /\ forall later u',
         later < validations.startTime body ->
         createReservation later u' body (db r)
         = mkResult (db r) slot_unavailable
             [Room_findById (validations.room body);
              Reservation_checkAvailability (validations.room body)
                (validations.startTime body) (validations.endTime body)].
Proof.
  intros Hfresh r H201. subst r.
  destruct (createReservation_201 now u body d H201)
    as (v & room & Hv & Hroom & Hact & Hcap & ->).
  destruct (validation_accepts now body v Hv)
    as (Hnow & Hse & Hn & Er & Es & Ee & En).
  simpl.
  assert (Hbusy :
    Reservation.checkAvailability (reservations d ++ [granted now u v d])
      (validations.room body) (validations.startTime body)
      (validations.endTime body) None = false).
  { apply checkAvailability_false_iff. exists (granted now u v d). split.
    - apply in_or_app. right. left. reflexivity.
    - unfold Reservation.conflictConditions, Reservation.or_clauses. simpl.
      rewrite Er, Es, Ee, Nat.eqb_refl. simpl.
      rewrite Z.leb_refl. simpl.
      destruct (Z.ltb_spec (validations.startTime body) (validations.endTime body));
        [reflexivity | lia]. }
  exists (granted now u v d). repeat split; auto.
  - apply (findById_fresh (reservations d) (granted now u v d)). exact Hfresh.
  - intros later u' Hlater.
    pose proof (validation_later now later body v Hv Hlater) as Hv'.
    assert (Hroom' : Room.findById
                       (rooms (mkDb (rooms d)
                                 (reservations d ++ [granted now u v d])%list
                                 (S (nextId d))))
                       (validations.room v) = Some room) by exact Hroom.
    rewrite (createReservation_validated later u' body _ v room Hv' Hroom' Hact).
    simpl. rewrite Er, Es, Ee.
    destruct (Z.ltb_spec (Room.capacity room) (validations.attendees v)); [lia|].
    rewrite Hbusy. reflexivity.
Qed.

Lemma createReservation_granted_holds_slot_witness :
  exists g,
    Reservation.findById
      (reservations (db (createReservation (8 * hour) bob half_hour_body
                           (mkDb [meeting_room] [ten_to_eleven] 1%nat)))) 1%nat
    = Some g
    /\ Reservation.status g = confirmed.
Proof.
  assert (Hfresh : Forall (fun x => (Reservation._id x < 1)%nat) [ten_to_eleven]).
  { repeat constructor. }
  destruct (createReservation_granted_holds_slot (8 * hour) bob half_hour_body
              (mkDb [meeting_room] [ten_to_eleven] 1%nat) Hfresh eq_refl)
    as (g & _ & Hfind & Hst & _).
  exists g. split; assumption.
Defined.

(** ** Cancelling frees the slot *)

Lemma find_ext_in {A} (f g : A -> bool) (l : list A) :
  (forall z, In z l -> f z = g z) -> find f l = find g l.
Proof.
  induction l as [|y rest IH]; simpl; intros H; [reflexivity|].
  rewrite (H y (or_introl eq_refl)), IH; [reflexivity|].
  intros z Hz. apply H. right. exact Hz.
Qed.

Lemma checkAvailability_after_release coll x x' roomId s e :
  NoDup (map Reservation._id coll) ->
  Reservation.findById coll (Reservation._id x') = Some x ->
  Reservation.isActive x' = false ->
  Reservation.checkAvailability (Reservation.replace x' coll) roomId s e None
  = Reservation.checkAvailability coll roomId s e (Some (Reservation._id x')).
Proof.
  intros Hnd Hf Hinactive.
  unfold Reservation.checkAvailability, Reservation.findOne.
  assert (E : find (Reservation.conflictConditions roomId s e None)
                (Reservation.replace x' coll)
              = find (Reservation.conflictConditions roomId s e
                        (Some (Reservation._id x'))) coll);
    [|rewrite E; reflexivity].
  revert Hnd Hf. unfold Reservation.findById.
  induction coll as [|y rest IH]; simpl; [reflexivity|].
  intros Hnd Hf. inversion Hnd as [|i l Hnotin Hnd']; subst.
  rewrite (conflictConditions_exclude roomId s e (Reservation._id x') y).
  destruct (Nat.eqb (Reservation._id y) (Reservation._id x')) eqn:Eid; simpl.
  - assert (Hx' : Reservation.conflictConditions roomId s e None x' = false).
    { unfold Reservation.conflictConditions.
      unfold Reservation.isActive in Hinactive. rewrite Hinactive.
      rewrite andb_false_r. reflexivity. }
    rewrite Hx'. apply find_ext_in. intros z Hz.
    rewrite conflictConditions_exclude.
    destruct (Nat.eqb_spec (Reservation._id z) (Reservation._id x')) as [Ez|];
      [|reflexivity].
    exfalso. apply Hnotin. apply Nat.eqb_eq in Eid. rewrite Eid, <- Ez.
    apply in_map. exact Hz.
  - destruct (Reservation.conflictConditions roomId s e None y); [reflexivity|].
    apply IH; assumption.
Qed.

(** X10. On a store with pairwise distinct ids, after a cancellation that
    is answered 200, by the owner's route or the administrator's, the
    availability of any room and slot is what [checkAvailability] answered
    before with the cancelled reservation excluded: the cancellation frees
    what that reservation held and nothing else. *)
Theorem cancellation_frees_its_slot
    (now : Date) (u : User) (id : ObjectId) (d : Db) :
  NoDup (map Reservation._id (reservations d)) ->
  (forall roomId s e,
     statusCode (response (cancelReservation now u id d)) = 200 ->
     Reservation.checkAvailability
       (reservations (db (cancelReservation now u id d))) roomId s e None
     = Reservation.checkAvailability (reservations d) roomId s e (Some id))
  /\ (forall roomId s e,
        statusCode (response (adminCancelReservation now id d)) = 200 ->
        Reservation.checkAvailability
          (reservations (db (adminCancelReservation now id d))) roomId s e None
        = Reservation.checkAvailability (reservations d) roomId s e (Some id)).
Proof.
  intros Hnd.
  assert (Hrel : forall x roomId s e,
    Reservation.findById (reservations d) id = Some x ->
    Reservation.checkAvailability
      (Reservation.replace
         (Reservation.set_updatedAt now (Reservation.set_status cancelled x))
         (reservations d)) roomId s e None
    = Reservation.checkAvailability (reservations d) roomId s e (Some id)).
  { intros x roomId s e Hf. destruct (findById_In _ _ _ Hf) as [_ Hid].
    rewrite <- Hid in Hf |- *.
    apply (checkAvailability_after_release (reservations d) x
             (Reservation.set_updatedAt now (Reservation.set_status cancelled x)));
      [exact Hnd | exact Hf | reflexivity]. }
  split; intros roomId s e.
  - unfold cancelReservation.
    destruct (Reservation.findById (reservations d) id) as [x|] eqn:Hf; [|discriminate].
    destruct (_ && negb (Nat.eqb _ _)); [discriminate|].
    destruct (_ && negb (Reservation.canBeCancelled _ _)); [discriminate|].
    intros _. simpl. apply Hrel. reflexivity.
  - unfold adminCancelReservation.
    destruct (Reservation.findById (reservations d) id) as [x|] eqn:Hf; [|discriminate].
    intros _. simpl. apply Hrel. reflexivity.
Qed.

Lemma cancellation_frees_its_slot_witness :
  Reservation.checkAvailability
    (reservations (db (cancelReservation (7 * hour) alice 0%nat
                         (mkDb [meeting_room] [ten_to_eleven; eleven_to_twelve] 2%nat))))
    7%nat (10 * hour) (11 * hour) None
  = true.
Proof.
  assert (Hnd : NoDup (map Reservation._id [ten_to_eleven; eleven_to_twelve])).
  { repeat constructor; simpl; intuition discriminate. }
  rewrite (proj1 (cancellation_frees_its_slot (7 * hour) alice 0%nat
                    (mkDb [meeting_room] [ten_to_eleven; eleven_to_twelve] 2%nat) Hnd)
             7%nat (10 * hour) (11 * hour) eq_refl).
  reflexivity.
Defined.

(** ** The administrator's status override *)

Lemma Status_of_string_names (s : string) :
  Status_of_string s <> None <-> In s status_names.
Proof.
  unfold Status_of_string, status_names. simpl.
  destruct (String.eqb_spec s "pending"); [split; [auto|discriminate]|].
  destruct (String.eqb_spec s "confirmed"); [split; [auto|discriminate]|].
  destruct (String.eqb_spec s "cancelled"); [split; [auto|discriminate]|].
  destruct (String.eqb_spec s "completed"); [split; [auto 6|discriminate]|].
  split; [congruence|]. intros [E|[E|[E|[E|[]]]]]; congruence.
Qed.

(** X12. [updateReservationStatus] refuses, with 400 "Invalid status", no
    database call and no change, exactly the status strings outside the
    four names of the enum, and each name reads back as its status. For
    one of the four names and an existing reservation it answers 200 and
    the reservation is then found with the new status, [updatedAt] at the
    time of the call and the same booking; for a missing id it answers
    404 and changes nothing. Two overrides in a row leave the store as the
    second alone does. *)
Theorem updateReservationStatus_override
    (now : Date) (id : ObjectId) (status : string) (d : Db) :
  let r := updateReservationStatus now id status d in
  (~ In status status_names <->
   r = mkResult d (json_error 400 "Invalid status") [])
  /\ (forall st, Status_of_string (string_of_Status st) = Some st)
  /\ (forall st, Status_of_string status = Some st ->
        (Reservation.findById (reservations d) id = None ->
         r = mkResult d (json_error 404 "Reservation not found")
               [Reservation_findByIdAndUpdate id])
        /\ (forall x, Reservation.findById (reservations d) id = Some x ->
              statusCode (response r) = 200
              /\ Reservation.findById (reservations (db r)) id
                 = Some (Reservation.set_updatedAt now (Reservation.set_status st x))
              /\ data (response r)
                 = Some (Reservation.set_updatedAt now (Reservation.set_status st x))
              /\ map booking_of (reservations (db r))
                 = map booking_of (reservations d))
        /\ (forall earlier status0,
              db (updateReservationStatus now id status
                    (db (updateReservationStatus earlier id status0 d)))
              = db r)).
Proof.
  intros r. subst r. split; [|split].
  - rewrite <- Status_of_string_names. unfold updateReservationStatus.
    destruct (Status_of_string status) as [st|].
    + split; [intros H; exfalso; apply H; discriminate|].
      unfold Reservation.findByIdAndUpdate.
      destruct (Reservation.findById (reservations d) id); discriminate.
    + split; [reflexivity | intros _ H; apply H; reflexivity].
  - intros []; reflexivity.
  - intros st Hst. unfold updateReservationStatus, Reservation.findByIdAndUpdate.
    rewrite Hst. split; [|split].
    + intros Hnone. rewrite Hnone. reflexivity.
    + intros x Hf. rewrite Hf. simpl.
      destruct (findById_In _ _ _ Hf) as [_ Hid].
      split; [reflexivity|]. split; [|split; [reflexivity|]].
      * eapply findById_replace; [exact Hf | exact Hid].
      * rewrite <- Hid in Hf.
        apply (map_replace booking_of (reservations d) x
                 (Reservation.set_updatedAt now (Reservation.set_status st x))
                 Hf eq_refl).
    + intros earlier status0.
      destruct (Status_of_string status0) as [st0|]; [|reflexivity].
      destruct (Reservation.findById (reservations d) id) as [x|] eqn:Hf;
        simpl; [|rewrite Hf; reflexivity].
      destruct (findById_In _ _ _ Hf) as [_ Hid].
      rewrite (findById_replace (reservations d) id x
                 (Reservation.set_updatedAt earlier (Reservation.set_status st0 x))
                 Hf Hid).
      simpl. unfold set_reservations. simpl. f_equal.
      apply replace_replace. reflexivity.
Qed.

(** ** The availability endpoint and booking agree *)

(** X8. For a creation body that passes its schema, the availability
    endpoint asked about the same room and slot (nothing excluded) is
    never answered 400; it is answered 404 exactly when the booking is
    refused for the room; and when it answers with data and the attendees
    fit the capacity it reports, [available: false] holds exactly when the
    booking is refused with the 409 slot conflict, and [available: true]
    with a duration within bounds exactly when the booking is granted. The
    endpoint itself looks at neither capacity nor duration. *)
Theorem availability_answer_predicts_booking
    (now : Date) (u : User) (body v : validations.createReservationBody) (d : Db) :
  validations.createReservationValidation now body = inr v ->
  let span := validations.endTime body - validations.startTime body in
  let reply :=
    checkAvailability now
      (mkCheck (validations.room body) (validations.startTime body)
         (validations.endTime body) None) d in
  let r := createReservation now u body d in
  reply_code reply <> 400
  /\ (reply_code reply = 404 <-> response r = room_unavailable)
  /\ (forall a, reply_data reply = Some a ->
        validations.attendees body <= data_capacity a ->
        (available a = false <-> response r = slot_unavailable)
        /\ (available a = true /\ minDuration <= span <= maxDuration
            <-> statusCode (response r) = 201)).
Proof.
  intros Hv span reply r.
  destruct (validation_accepts now body v Hv)
    as (Hnow & Hse & Hn & Er & Es & Ee & En).
  assert (Hcheck : checkAvailabilityValidation now
                     (mkCheck (validations.room body) (validations.startTime body)
                        (validations.endTime body) None)
                   = inr (mkCheck (validations.room body) (validations.startTime body)
                            (validations.endTime body) None)).
  { unfold checkAvailabilityValidation. simpl.
    destruct (Z.ltb_spec now (validations.startTime body)); [|lia].
    destruct (Z.ltb_spec (validations.startTime body) (validations.endTime body));
      [reflexivity|lia]. }
  subst reply. unfold checkAvailability. rewrite Hcheck. simpl.
  destruct (Room.findById (rooms d) (validations.room body)) as [room|] eqn:Hroom.
  2:{ subst r. unfold createReservation. rewrite Hv, Er, Hroom. simpl.
      split; [discriminate|]. split; [tauto|]. intros a E. discriminate E. }
  destruct (Room.isActive room) eqn:Hact; simpl.
  2:{ subst r. unfold createReservation. rewrite Hv, Er, Hroom, Hact. simpl.
      split; [discriminate|]. split; [tauto|]. intros a E. discriminate E. }
  assert (Hr : r = createReservation now u body d) by reflexivity.
  rewrite <- Er in Hroom.
  rewrite (createReservation_validated now u body d v room Hv Hroom Hact) in Hr.
  rewrite Er, Es, Ee, En in Hr. simpl in Hr. fold span in Hr.
  split; [discriminate|]. split.
  - split; [discriminate|]. rewrite Hr.
    destruct (_ <? _); [discriminate|].
    destruct (negb _); [discriminate|].
    destruct (_ <? _); [discriminate|].
    destruct (_ <? _); discriminate.
  - intros a E Hcap. injection E as <-. simpl in *.
    apply Z.ltb_ge in Hcap. rewrite Hcap in Hr.
    destruct (Reservation.checkAvailability (reservations d) (validations.room body)
                (validations.startTime body) (validations.endTime body) None);
      simpl in Hr.
    + destruct (Z.ltb_spec span minDuration);
        [|destruct (Z.ltb_spec maxDuration span)];
        rewrite Hr; simpl; (split; split; try discriminate; try tauto; try lia).
      all: intros [_ ?]; lia.
    + rewrite Hr. simpl. split; split; try discriminate; try tauto.
      intros [E _]. discriminate E.
Qed.

Lemma availability_answer_predicts_booking_witness :
  reply_code
    (checkAvailability (8 * hour) (mkCheck 7%nat (10 * hour) (10 * hour + 10 * minute) None)
       (mkDb [meeting_room] [ten_to_eleven] 1%nat))
  <> 400.
Proof.
  exact (proj1 (availability_answer_predicts_booking (8 * hour) bob ten_minutes_body
                  ten_minutes_body (mkDb [meeting_room] [ten_to_eleven] 1%nat) eq_refl)).
Defined.

(** ** Statistics *)

Lemma countDocuments_le (P Q : Reservation.doc -> bool) coll :
  (forall x, P x = true -> Q x = true) ->
  (countDocuments P coll <= countDocuments Q coll)%nat.
Proof.
  intros H. unfold countDocuments.
  induction coll as [|y rest IH]; simpl; [lia|].
  destruct (P y) eqn:Hp.
  - rewrite (H y Hp). simpl. lia.
  - destruct (Q y); simpl; lia.
Qed.

Lemma countDocuments_all coll :
  countDocuments (fun _ => true) coll = List.length coll.
Proof.
  unfold countDocuments. induction coll; simpl; congruence.
Qed.



(** ** Listings and their pagination *)

Lemma totalPages_bounds (count l : Z) :
  1 <= l ->
  let pages := Qceiling (inject_Z count / inject_Z l) in
  (pages - 1) * l < count <= pages * l.
Proof.
  intros Hl. destruct l as [|p|p]; try lia.
  unfold Qceiling, Qfloor, Qopp, Qdiv, Qmult, Qinv, inject_Z. simpl.
  rewrite Z.mul_1_r.
  pose proof (Z.div_mod (- count) (Z.pos p) ltac:(lia)) as Hdm.
  pose proof (Z.mod_pos_bound (- count) (Z.pos p) ltac:(lia)) as Hmod.
  nia.
Qed.

Lemma insertion_sort_permutation k o l : Permutation (insertion_sort k o l) l.
Proof.
  unfold insertion_sort. induction l as [|x rest IH]; simpl; [constructor|].
  assert (Hins : forall m, Permutation (insert_sorted k o x m) (x :: m)).
  { induction m as [|y m IHm]; simpl; [repeat constructor|].
    destruct (if o then _ else _); [apply Permutation_refl|].
    eapply Permutation_trans; [apply perm_skip, IHm | apply perm_swap]. }
  eapply Permutation_trans; [apply Hins | apply perm_skip, IH].
Qed.

Lemma In_firstn {A} (x : A) n l : In x (firstn n l) -> In x l.
Proof.
  intros H. rewrite <- (firstn_skipn n l). apply in_or_app. left. exact H.
Qed.

Lemma In_skipn {A} (x : A) n l : In x (skipn n l) -> In x l.
Proof.
  intros H. rewrite <- (firstn_skipn n l). apply in_or_app. right. exact H.
Qed.



(** ** What blocks a slot *)

(** X2. On a collection of proper intervals and for a proper slot,
    [checkAvailability] without exclusion answers available exactly when
    no pending or confirmed reservation of that room overlaps the slot:
    cancelled and completed reservations, and reservations of other rooms,
    never block it. *)
Theorem checkAvailability_iff_no_active_overlap
    (coll : list Reservation.doc) (roomId : ObjectId) (s e : Date) :
  well_formed coll ->
  s < e ->
  Reservation.checkAvailability coll roomId s e None = true
  <-> forall x, In x coll ->
        Reservation.room x = roomId ->
        Reservation.status x = pending \/ Reservation.status x = confirmed ->
        ~ overlap (Reservation.startTime x) (Reservation.endTime x) s e.
Proof.
  intros Hwf Hse.
  pose proof (checkAvailability_slot_taken coll roomId s e Hwf Hse) as Htaken.
  split.
  - intros Hav x Hin Hroom Hst Hov.
    assert (Hf : Reservation.checkAvailability coll roomId s e None = false).
    { apply Htaken. exists x. repeat split; auto; try apply Hov.
      unfold Reservation.isActive. destruct Hst as [-> | ->]; reflexivity. }
    congruence.
  - intros Hfree.
    destruct (Reservation.checkAvailability coll roomId s e None) eqn:Hav;
      [reflexivity|].
    apply (checkAvailability_slot_taken coll roomId s e Hwf Hse) in Hav
      as (x & Hin & Hroom & Hact & Hov).
    exfalso. apply (Hfree x Hin Hroom); [|exact Hov].
    unfold Reservation.isActive in Hact.
    destruct (Reservation.status x); simpl in Hact; auto; discriminate.
Qed.

Lemma checkAvailability_iff_no_active_overlap_witness :
  Reservation.checkAvailability
    [Reservation.set_status cancelled ten_to_eleven; eleven_to_twelve]
    7%nat (10 * hour) (11 * hour) None = true.
Proof.
  assert (Hwf : well_formed
                  [Reservation.set_status cancelled ten_to_eleven; eleven_to_twelve]).
  { repeat constructor. }
  assert (Hse : 10 * hour < 11 * hour) by reflexivity.
  apply (proj2 (checkAvailability_iff_no_active_overlap _ 7%nat _ _ Hwf Hse)).
  intros x [<- | [<- | []]] _ Hst [H1 H2].
  - destruct Hst as [E | E]; discriminate E.
  - vm_compute in H1. discriminate H1.
Defined.

(** ** Three ways for an administrator to cancel *)

(** X15. For a caller with the administrator's role, the owner's route
    [cancelReservation], the route [adminCancelReservation] and the status
    override with 'cancelled' leave the same database and return the same
    reservation with the same status code: when the id exists, 200 with
    the reservation as it is then stored, its status 'cancelled', its
    [updatedAt] the time of the call and its booking unchanged; 404 when
    the id does not exist. *)
Theorem administrator_cancellations_agree
    (now : Date) (u : User) (id : ObjectId) (d : Db) :
  role u = admin_role ->
  let r1 := cancelReservation now u id d in
  let r2 := adminCancelReservation now id d in
  let r3 := updateReservationStatus now id "cancelled" d in
  (forall x, Reservation.findById (reservations d) id = Some x ->
     let x' := Reservation.set_updatedAt now (Reservation.set_status cancelled x) in
     data (response r2) = Some x'
     /\ Reservation.findById (reservations (db r2)) id = Some x'
     /\ Reservation.status x' = cancelled
     /\ booking_of x' = booking_of x)
  /\ db r1 = db r2 /\ db r2 = db r3
  /\ data (response r1) = data (response r2)
  /\ data (response r2) = data (response r3)
  /\ statusCode (response r1) = statusCode (response r2)
  /\ statusCode (response r2) = statusCode (response r3)
  /\ (statusCode (response r2) = 200
      <-> Reservation.findById (reservations d) id <> None)
  /\ (statusCode (response r2) = 404
      <-> Reservation.findById (reservations d) id = None).
Proof.
  intros Hrole r1 r2 r3. subst r1 r2 r3.
  split.
  { intros x Hf x'. unfold adminCancelReservation. rewrite Hf. simpl.
    destruct (findById_In _ _ _ Hf) as [_ Hid].
    split; [reflexivity|]. split; [|split; reflexivity].
    apply (findById_replace _ _ x x' Hf). exact Hid. }
  unfold cancelReservation, adminCancelReservation, updateReservationStatus,
    Reservation.findByIdAndUpdate.
  rewrite Hrole. simpl.
  destruct (Reservation.findById (reservations d) id) as [x|]; simpl.
  - repeat split; try reflexivity; try discriminate.
  - repeat split; try reflexivity; try discriminate; try congruence.
Qed.

Lemma administrator_cancellations_agree_witness :
  db (cancelReservation (9 * hour) root 0%nat
        (mkDb [meeting_room] [ten_to_eleven] 1%nat))
  = db (updateReservationStatus (9 * hour) 0%nat "cancelled"
          (mkDb [meeting_room] [ten_to_eleven] 1%nat)).
Proof.
  destruct (administrator_cancellations_agree (9 * hour) root 0%nat
              (mkDb [meeting_room] [ten_to_eleven] 1%nat) eq_refl)
    as (_ & E1 & E2 & _).
  exact (eq_trans E1 E2).
Defined.

(** ** Keeping the rooms free of double bookings *)

(** X1. For requests served one at a time, each handler running to its
    answer before the next request is taken: from any store of proper
    intervals without double booking, every sequence of requests on the
    four routes in which no status override puts a cancelled or completed
    reservation back to 'pending' or 'confirmed' leaves a store of proper
    intervals without double booking. (Two creations in flight together
    are outside this statement: the handler awaits between its
    availability check and its insert.) *)
Theorem booking_invariant_kept_without_reactivation (l : list Arrival) (d : Db) :
  well_formed (reservations d) ->
  no_double_booking (reservations d) = true ->
  never_reactivates l d = true ->
  well_formed (reservations (run l d))
  /\ no_double_booking (reservations (run l d)) = true.
Proof.
  intros Hwf Hndb Hsafe. apply (run_preserves l d Hsafe). split; assumption.
Qed.

Lemma booking_invariant_kept_without_reactivation_witness :
  no_double_booking
    (reservations
       (run [mkArrival (8 * hour) bob (POST_reservation ten_minutes_body);
             mkArrival (8 * hour) bob (POST_reservation half_hour_body);
             mkArrival (9 * hour) root (PATCH_admin_status 0%nat "pending")]
          (mkDb [meeting_room] [ten_to_eleven; eleven_to_twelve] 2%nat)))
  = true.
Proof.
  assert (Hwf : well_formed [ten_to_eleven; eleven_to_twelve]) by (repeat constructor).
  apply (booking_invariant_kept_without_reactivation
           [mkArrival (8 * hour) bob (POST_reservation ten_minutes_body);
            mkArrival (8 * hour) bob (POST_reservation half_hour_body);
            mkArrival (9 * hour) root (PATCH_admin_status 0%nat "pending")]
           (mkDb [meeting_room] [ten_to_eleven; eleven_to_twelve] 2%nat) Hwf);
    reflexivity.
Defined.

Lemma In_replace x' coll z :
  In z (Reservation.replace x' coll) -> z = x' \/ In z coll.
Proof.
  induction coll as [|y rest IH]; simpl; [tauto|].
  destruct (Nat.eqb _ _); simpl; intuition.
Qed.

Lemma clash_sym x y : clash x y = clash y x.
Proof.
  unfold clash, overlapb. rewrite (Nat.eqb_sym (Reservation.room x)).
  destruct (Reservation.isActive x), (Reservation.isActive y),
    (Nat.eqb (Reservation.room y) (Reservation.room x)),
    (Reservation.startTime x <? Reservation.endTime y),
    (Reservation.startTime y <? Reservation.endTime x); reflexivity.
Qed.

Lemma no_double_booking_replace_free coll x' :
  NoDup (map Reservation._id coll) ->
  (forall z, In z coll -> Reservation._id z <> Reservation._id x' ->
             clash x' z = false) ->
  no_double_booking coll = true ->
  no_double_booking (Reservation.replace x' coll) = true.
Proof.
  induction coll as [|y rest IH]; simpl; [reflexivity|].
  intros Hnd Hfree Hndb. inversion Hnd as [|i l Hnotin Hnd']; subst.
  apply andb_true_iff in Hndb as [Hy Hrest].
  destruct (Nat.eqb_spec (Reservation._id y) (Reservation._id x')) as [E|E]; simpl.
  - rewrite Hrest, andb_true_r. apply forallb_forall. intros z Hz.
    rewrite Hfree; [reflexivity | right; exact Hz |].
    intros Ez. apply Hnotin. rewrite E, <- Ez. apply in_map. exact Hz.
  - rewrite IH; auto. rewrite andb_true_r.
    apply forallb_forall. intros z Hz.
    destruct (In_replace _ _ _ Hz) as [-> | Hin].
    + rewrite clash_sym, Hfree; [reflexivity | left; reflexivity | exact E].
    + rewrite forallb_forall in Hy. exact (Hy z Hin).
Qed.

(** X6. The exclusion parameter of [checkAvailability] is the guard the
    status override lacks: on a store of proper intervals with pairwise
    distinct ids and no double booking, if [checkAvailability] on an
    existing reservation's own room and interval, with its own id
    excluded, answers available, then [updateReservationStatus] with any
    status on that reservation leaves a store without double booking. *)
Theorem updateReservationStatus_safe_after_self_check
    (now : Date) (id : ObjectId) (status : string) (d : Db) (x : Reservation.doc) :
  well_formed (reservations d) ->
  NoDup (map Reservation._id (reservations d)) ->
  no_double_booking (reservations d) = true ->
  Reservation.findById (reservations d) id = Some x ->
  Reservation.checkAvailability (reservations d) (Reservation.room x)
    (Reservation.startTime x) (Reservation.endTime x) (Some id) = true ->
  no_double_booking (reservations (db (updateReservationStatus now id status d))) = true.
Proof.
  intros Hwf Hnd Hndb Hf Hav.
  unfold updateReservationStatus, Reservation.findByIdAndUpdate.
  destruct (Status_of_string status) as [st|]; [|exact Hndb].
  rewrite Hf. simpl.
  destruct (findById_In _ _ _ Hf) as [Hin Hid].
  assert (Hpx : proper_interval x) by (eapply Forall_forall; eauto).
  apply no_double_booking_replace_free; [exact Hnd | | exact Hndb].
  intros z Hz Hne. simpl in Hne.
  rewrite checkAvailability_true_iff in Hav. specialize (Hav z Hz).
  rewrite conflictConditions_exclude in Hav.
  assert (Hpz : proper_interval z) by (eapply Forall_forall; eauto).
  rewrite (conflictConditions_clash _ _ _ z Hpz Hpx) in Hav.
  destruct (Nat.eqb_spec (Reservation._id z) id) as [Ez|_]; [congruence|].
  simpl in Hav. rewrite clash_sym. unfold clash. simpl.
  destruct (Nat.eqb (Reservation.room z) (Reservation.room x)),
    (Reservation.isActive z),
    (overlapb (Reservation.startTime z) (Reservation.endTime z)
       (Reservation.startTime x) (Reservation.endTime x));
    simpl in *; try reflexivity; try discriminate Hav.
  all: rewrite ?andb_false_r; reflexivity.
Qed.

Lemma updateReservationStatus_safe_after_self_check_witness :
  no_double_booking
    (reservations
       (db (updateReservationStatus (9 * hour) 0%nat "confirmed"
              (mkDb [meeting_room]
                 [Reservation.set_status cancelled ten_to_eleven; eleven_to_twelve]
                 2%nat))))
  = true.
Proof.
  assert (Hwf : well_formed
                  [Reservation.set_status cancelled ten_to_eleven; eleven_to_twelve]).
  { repeat constructor. }
  assert (Hnd : NoDup (map Reservation._id
                         [Reservation.set_status cancelled ten_to_eleven;
                          eleven_to_twelve])).
  { repeat constructor; simpl; intuition discriminate. }
  apply (updateReservationStatus_safe_after_self_check (9 * hour) 0%nat "confirmed"
           (mkDb [meeting_room]
              [Reservation.set_status cancelled ten_to_eleven; eleven_to_twelve] 2%nat)
           (Reservation.set_status cancelled ten_to_eleven) Hwf Hnd);
    reflexivity.
Defined.
